(** * Storage managers for eval sets and eval set results

    A shallow embedding of the four storage managers of
    [google.adk.evaluation]:

    - [LocalEvalSetStorageManager]         (local_eval_set_storage_manager.py)
    - [LocalEvalSetResultsStorageManager]  (local_eval_set_results_storage_manager.py)
    - [GcsEvalSetStorageManager]           (gcs_eval_set_storage_manager.py)
    - [GcsEvalSetResultsStorageManager]    (gcs_eval_set_results_storage_manager.py)

    Python [str] values are Rocq strings, compared character by character
    by code.  Exceptions are values of [exn]; a call that may raise returns
    a [result].  The file system and the object store are explicit states
    threaded through the calls.  Paths follow [posixpath]. *)

From stdpp Require Import base option list gmap strings sorting.
From Stdlib Require Import Strings.Ascii Strings.String Strings.Byte.

Local Open Scope string_scope.

(** ** Exceptions and results *)

Inductive exn : Type :=
  | ValueError (msg : string)
  | FileNotFoundError
  | NotADirectoryError
  | IsADirectoryError
  | FileExistsError
  | PermissionError
  | UnicodeDecodeError
  | ValidationError        (* pydantic_core.ValidationError *)
  | NotFound               (* google.cloud.exceptions.NotFound *)
  | Forbidden.             (* google.cloud.exceptions.Forbidden *)

Inductive result (A : Type) : Type :=
  | Ok (a : A)
  | Raise (e : exn).
Arguments Ok {A} a.
Arguments Raise {A} e.

Global Instance result_ret : MRet result := fun _ a => Ok a.
Global Instance result_bind : MBind result := fun _ _ f m =>
  match m with
  | Ok a => f a
  | Raise e => Raise e
  end.

(** ** Python string operations *)

Definition sep : ascii := "/"%char.
Definition is_sep (c : ascii) : bool := Ascii.eqb c sep.

(** [s.startswith(p)] *)
Definition startswith (s p : string) : bool := String.prefix p s.

(** [s.endswith(suf)]: [suf] is [s] itself or a suffix of the tail of [s]. *)
Fixpoint endswith (s suf : string) : bool :=
  String.eqb s suf ||
  match s with
  | EmptyString => false
  | String _ r => endswith r suf
  end.

(** [s.removesuffix(suf)]: [s[:-len(suf)]] when [suf] is not empty and
    [s] ends with it, otherwise [s]. *)
Definition removesuffix (s suf : string) : string :=
  if negb (String.eqb suf "") && endswith s suf
  then substring 0 (String.length s - String.length suf) s
  else s.

(** [s.split("/")] *)
Fixpoint split_sep (s : string) : list string :=
  match s with
  | EmptyString => [""]
  | String c r =>
      if is_sep c then "" :: split_sep r
      else match split_sep r with
           | h :: t => String c h :: t
           | [] => [String c ""]
           end
  end.

(** [l[-1]] on the list returned by [split], which is never empty. *)
Definition last_item (l : list string) : string := List.last l "".

(** [sorted(l)] on a list of strings. *)
Definition sorted (l : list string) : list string := merge_sort String.le l.

(** ** posixpath *)

Definition has_sep (s : string) : bool :=
  existsb is_sep (list_ascii_of_string s).

(** [p[:p.rfind("/") + 1]] *)
Fixpoint head_of (p : string) : string :=
  match p with
  | EmptyString => ""
  | String c r => if is_sep c || has_sep r then String c (head_of r) else ""
  end.

(** [p[p.rfind("/") + 1:]] *)
Fixpoint tail_of (p : string) : string :=
  match p with
  | EmptyString => ""
  | String c r => if is_sep c || has_sep r then tail_of r else p
  end.

(** [s.rstrip("/")] *)
Fixpoint rstrip_sep (s : string) : string :=
  match s with
  | EmptyString => ""
  | String c r =>
      let r' := rstrip_sep r in
      if is_sep c && String.eqb r' "" then "" else String c r'
  end.

(** ["/" * k] *)
Fixpoint seps (k : nat) : string :=
  match k with
  | 0 => ""
  | S k => String sep (seps k)
  end.

(** [s == "/" * len(s)] *)
Definition all_sep (s : string) : bool :=
  forallb is_sep (list_ascii_of_string s).

(** [os.path.dirname(p)] *)
Definition dirname (p : string) : string :=
  let head := head_of p in
  if negb (String.eqb head "") && negb (all_sep head)
  then rstrip_sep head
  else head.

(** [os.path.basename(p)] *)
Definition basename (p : string) : string := tail_of p.

(** One step of the loop of [os.path.join(a, *p)]. *)
Definition join2 (path b : string) : string :=
  if startswith b "/" then b
  else if String.eqb path "" || endswith path "/" then path ++ b
  else path ++ "/" ++ b.

(** [os.path.join(a, *p)] *)
Definition os_path_join (a : string) (p : list string) : string :=
  fold_left join2 p a.

(** ** The file system ([os], [open])

    A directory tree without symbolic links.  Every entry is stored under
    its canonical location, the list of names leading to it from the root;
    the root itself is always a directory.  A regular file carries its
    read and write permission and its bytes. *)

Inductive node : Type :=
  | File (readable writable : bool) (data : list byte)
  | Dir.

Record filesystem : Type := {
  cwd : list string;
  entries : gmap (list string) node
}.

Definition node_at (m : gmap (list string) node) (p : list string) : option node :=
  match p with
  | [] => Some Dir
  | _ => m !! p
  end.

(** The names of a path that matter for its resolution: empty names
    (doubled or trailing slashes) and [.] stay where they are. *)
Definition components (p : string) : list string :=
  filter (λ c, c ≠ "" ∧ c ≠ ".") (split_sep p).

Definition step (cur : list string) (c : string) : list string :=
  if decide (c = "..") then removelast cur else cur ++ [c].

(** Path resolution: every name is looked up in a directory that exists. *)
Fixpoint walk (m : gmap (list string) node) (cur : list string)
    (cs : list string) : result (list string) :=
  match cs with
  | [] => Ok cur
  | c :: cs' =>
      match node_at m cur with
      | None => Raise FileNotFoundError
      | Some (File _ _ _) => Raise NotADirectoryError
      | Some Dir => walk m (step cur c) cs'
      end
  end.

Definition start_dir (fs : filesystem) (path : string) : list string :=
  if startswith path "/" then [] else cwd fs.

Definition resolve (fs : filesystem) (path : string) : result (list string) :=
  if String.eqb path "" then Raise FileNotFoundError
  else walk (entries fs) (start_dir fs path) (components path).

Definition stat (fs : filesystem) (path : string) : result (list string * node) :=
  t ← resolve fs path;
  match node_at (entries fs) t with
  | None => Raise FileNotFoundError
  | Some n => Ok (t, n)
  end.

(** [os.path.abspath(path)]: the location a path names, whatever exists. *)
Definition abspath (fs : filesystem) (path : string) : list string :=
  foldl step (start_dir fs path) (components path).

(** [os.path.exists(path)]: false on every failure of [stat]. *)
Definition os_path_exists (fs : filesystem) (path : string) : bool :=
  match stat fs path with
  | Ok _ => true
  | Raise _ => false
  end.

(** The name [n] when [k] is the location [d ++ [n]]. *)
Fixpoint child_of (d k : list string) : option string :=
  match d, k with
  | [], [n] => Some n
  | x :: d', y :: k' => if decide (x = y) then child_of d' k' else None
  | _, _ => None
  end.

Definition children (m : gmap (list string) node) (d : list string) : list string :=
  omap (child_of d) (map_to_list m).*1.

(** [os.listdir(path)] *)
Definition os_listdir (fs : filesystem) (path : string) : result (list string) :=
  '(t, n) ← stat fs path;
  match n with
  | Dir => Ok (children (entries fs) t)
  | File _ _ _ => Raise NotADirectoryError
  end.

(** The directories [os.makedirs] creates along a path. *)
Fixpoint mkdir_p (m : gmap (list string) node) (cur : list string)
    (cs : list string) : result (gmap (list string) node) :=
  match cs with
  | [] => Ok m
  | c :: cs' =>
      match node_at m cur with
      | None => Raise FileNotFoundError
      | Some (File _ _ _) => Raise NotADirectoryError
      | Some Dir =>
          let nxt := step cur c in
          match node_at m nxt with
          | None => mkdir_p (<[nxt := Dir]> m) nxt cs'
          | Some Dir => mkdir_p m nxt cs'
          | Some (File _ _ _) =>
              match cs' with
              | [] => Raise FileExistsError
              | _ => Raise NotADirectoryError
              end
          end
      end
  end.

(** [os.makedirs(path, exist_ok=True)] *)
Definition os_makedirs (fs : filesystem) (path : string) : result filesystem :=
  if String.eqb path "" then Raise FileNotFoundError
  else
    m ← mkdir_p (entries fs) (start_dir fs path) (components path);
    mret {| cwd := cwd fs; entries := m |}.

(** [with open(path, "wb") as f: f.write(data)]: the file is created in an
    existing directory, or truncated and rewritten. *)
Definition write_bytes (fs : filesystem) (path : string) (data : list byte)
    : result filesystem :=
  t ← resolve fs path;
  match node_at (entries fs) t with
  | Some Dir => Raise IsADirectoryError
  | Some (File r w _) =>
      if w then Ok {| cwd := cwd fs; entries := <[t := File r w data]> (entries fs) |}
      else Raise PermissionError
  | None =>
      match node_at (entries fs) (removelast t) with
      | Some Dir => Ok {| cwd := cwd fs; entries := <[t := File true true data]> (entries fs) |}
      | Some (File _ _ _) => Raise NotADirectoryError
      | None => Raise FileNotFoundError
      end
  end.

(** [with open(path, "rb") as f: f.read()] *)
Definition read_bytes (fs : filesystem) (path : string) : result (list byte) :=
  '(_, n) ← stat fs path;
  match n with
  | Dir => Raise IsADirectoryError
  | File r _ data => if r then Ok data else Raise PermissionError
  end.


(** Text mode.  [open(path, "w")] encodes with the encoding of the
    locale (and translates newlines); [open(path, "r", encoding="utf-8")]
    decodes UTF-8 and fails with [UnicodeDecodeError] on other bytes. *)
Class TextEncoding : Type := {
  locale_encode : string → list byte;
  utf8_decode : list byte → option string
}.

Section text_files.
Context `{TextEncoding}.

(** [with open(path, "w") as f: f.write(text)] *)
Definition write_text (fs : filesystem) (path text : string) : result filesystem :=
  write_bytes fs path (locale_encode text).


(** [with open(path, "r", encoding="utf-8") as f: f.read()] *)
Definition read_text_utf8 (fs : filesystem) (path : string) : result string :=
  data ← read_bytes fs path;
  match utf8_decode data with
  | Some text => Ok text
  | None => Raise UnicodeDecodeError
  end.
End text_files.

(** ** The object store ([google.cloud.storage])

    The provider maps the name of every bucket it has to the objects of
    the bucket, an object name to the text of the object and whether the
    caller may read it. *)

Record blob : Type := {
  content : string;
  readable_blob : bool
}.

Abbreviation bucket := (gmap string blob).
Abbreviation cloud := (gmap string (gmap string blob)).

(** [bucket.exists()] *)
Definition bucket_exists (c : cloud) (bucket_name : string) : bool :=
  bool_decide (is_Some (c !! bucket_name)).

(** The names of [bucket.list_blobs(prefix=prefix)]. *)
Definition list_blobs (c : cloud) (bucket_name prefix : string) : result (list string) :=
  match c !! bucket_name with
  | None => Raise NotFound
  | Some b => Ok (filter (λ name, startswith name prefix) (map_to_list b).*1)
  end.

(** [bucket.blob(name).upload_from_string(data, content_type=...)] *)
Definition upload_from_string (c : cloud) (bucket_name name data : string) : result cloud :=
  match c !! bucket_name with
  | None => Raise NotFound
  | Some b =>
      Ok (<[bucket_name := <[name := {| content := data; readable_blob := true |}]> b]> c)
  end.

(** [bucket.blob(name).download_as_text()] *)
Definition download_as_text (c : cloud) (bucket_name name : string) : result string :=
  match c !! bucket_name with
  | None => Raise NotFound
  | Some b =>
      match b !! name with
      | None => Raise NotFound
      | Some o => if readable_blob o then Ok (content o) else Raise Forbidden
      end
  end.

(** ** Documents ([pydantic.BaseModel])

    [EvalSet] and [EvalSetResult] are defined elsewhere; the managers use
    only their JSON serialisation. *)

Class BaseModel (D : Type) : Type := {
  (** [d.model_dump_json(indent=2)] *)
  model_dump_json : D → string;
  (** [D.model_validate_json(text)], [None] for [ValidationError] *)
  model_validate_json : string → option D
}.

(** The serialised form of a document survives deserialisation. *)
Definition valid_document `{BaseModel D} (d : D) : Prop :=
  ∃ d', model_validate_json (model_dump_json d) = Some d' ∧
        model_dump_json d' = model_dump_json d.

(** ** local_eval_set_storage_manager.py *)

Module LocalEvalSetStorageManager.

Definition _EVAL_SET_FILE_EXTENSION : string := ".evalset.json".

Record t : Type := { _agents_dir : string }.

Definition __init__ (agents_dir : string) : t := {| _agents_dir := agents_dir |}.

Definition get_eval_set_path (self : t) (app_name eval_set_id : string) : string :=
  os_path_join (_agents_dir self)
    [app_name; eval_set_id ++ _EVAL_SET_FILE_EXTENSION].

Definition list_eval_sets (self : t) (fs : filesystem) (app_name : string)
    : result (list string) :=
  let eval_sets_dir := os_path_join (_agents_dir self) [app_name] in
  files ← os_listdir fs eval_sets_dir;
  mret (sorted
    ((λ file, removesuffix (basename file) _EVAL_SET_FILE_EXTENSION) <$>
     filter (λ file, endswith file _EVAL_SET_FILE_EXTENSION) files)).

Section documents.
Context {EvalSet : Type} `{BaseModel EvalSet} `{TextEncoding}.

Definition save_eval_set (self : t) (fs : filesystem) (path : string)
    (eval_set : EvalSet) : result filesystem :=
  fs ← (if negb (os_path_exists fs (dirname path))
        then os_makedirs fs (dirname path)
        else Ok fs);
  write_text fs path (model_dump_json eval_set).

Definition load_eval_set (self : t) (fs : filesystem) (path : string)
    : result (option EvalSet) :=
  match read_text_utf8 fs path with
  | Ok content =>
      match model_validate_json content with
      | Some eval_set => Ok (Some eval_set)
      | None => Raise ValidationError
      end
  | Raise FileNotFoundError => Ok None
  | Raise e => Raise e
  end.
End documents.

End LocalEvalSetStorageManager.

(** ** local_eval_set_results_storage_manager.py *)

Module LocalEvalSetResultsStorageManager.

Definition _ADK_EVAL_HISTORY_DIR : string := ".adk/eval_history".
Definition _EVAL_SET_RESULT_FILE_EXTENSION : string := ".evalset_result.json".

Record t : Type := { _agents_dir : string }.

Definition __init__ (agents_dir : string) : t := {| _agents_dir := agents_dir |}.

Definition _get_eval_history_dir (self : t) (app_name : string) : string :=
  os_path_join (_agents_dir self) [app_name; _ADK_EVAL_HISTORY_DIR].

Definition get_eval_set_result_path (self : t)
    (app_name eval_set_result_id : string) : string :=
  os_path_join (_agents_dir self)
    [app_name; _ADK_EVAL_HISTORY_DIR;
     eval_set_result_id ++ _EVAL_SET_RESULT_FILE_EXTENSION].

Definition list_eval_set_results (self : t) (fs : filesystem) (app_name : string)
    : result (list string) :=
  let app_eval_history_directory := _get_eval_history_dir self app_name in
  if negb (os_path_exists fs app_eval_history_directory) then Ok []
  else
    files ← os_listdir fs app_eval_history_directory;
    mret (sorted
      ((λ file, removesuffix file _EVAL_SET_RESULT_FILE_EXTENSION) <$>
       filter (λ file, endswith file _EVAL_SET_RESULT_FILE_EXTENSION) files)).

Section documents.
Context {EvalSetResult : Type} `{BaseModel EvalSetResult} `{TextEncoding}.

Definition save_eval_set_result (self : t) (fs : filesystem) (path : string)
    (eval_set_result : EvalSetResult) : result filesystem :=
  fs ← (if negb (os_path_exists fs (dirname path))
        then os_makedirs fs (dirname path)
        else Ok fs);
  write_text fs path (model_dump_json eval_set_result).

Definition load_eval_set_result (self : t) (fs : filesystem) (path : string)
    : result (option EvalSetResult) :=
  match read_text_utf8 fs path with
  | Ok content =>
      match model_validate_json content with
      | Some eval_set_result => Ok (Some eval_set_result)
      | None => Raise ValidationError
      end
  | Raise FileNotFoundError => Ok None
  | Raise e => Raise e
  end.
End documents.

End LocalEvalSetResultsStorageManager.

(** ** gcs_eval_set_storage_manager.py *)

Module GcsEvalSetStorageManager.

Definition _EVAL_SETS_DIR : string := "evals/eval_sets".
Definition _EVAL_SET_FILE_EXTENSION : string := ".evalset.json".

(** The client and the bucket handle are determined by the bucket name. *)
Record t : Type := { bucket_name : string }.

Definition __init__ (c : cloud) (bucket_name : string) : result t :=
  if negb (bucket_exists c bucket_name)
  then Raise (ValueError
    ("Bucket `" ++ bucket_name ++ "` does not exist. Please create it before" ++
     " using the GcsEvalSetStorageManager."))
  else Ok {| bucket_name := bucket_name |}.

Definition _get_eval_sets_dir (self : t) (app_name : string) : string :=
  app_name ++ "/" ++ _EVAL_SETS_DIR.

Definition pattern : string := "^[a-zA-Z0-9_]+$".

(** The character class [[a-zA-Z0-9_]]. *)
Definition in_class (c : ascii) : bool :=
  (Ascii.leb "a" c && Ascii.leb c "z") ||
  (Ascii.leb "A" c && Ascii.leb c "Z") ||
  (Ascii.leb "0" c && Ascii.leb c "9") ||
  Ascii.eqb c "_".

(** [bool(re.fullmatch(pattern, s))]: the whole of [s] is one or more
    characters of the class. *)
Definition fullmatch (s : string) : bool :=
  negb (String.eqb s "") && forallb in_class (list_ascii_of_string s).

Definition _validate_id (self : t) (id_name id_value : string) : result unit :=
  if negb (fullmatch id_value)
  then Raise (ValueError
    ("Invalid " ++ id_name ++ ". " ++ id_name ++ " should have the `" ++
     pattern ++ "` format"))
  else Ok tt.

Definition get_eval_set_path (self : t) (app_name eval_set_id : string) : string :=
  let eval_sets_dir := _get_eval_sets_dir self app_name in
  eval_sets_dir ++ "/" ++ eval_set_id ++ _EVAL_SET_FILE_EXTENSION.

Definition list_eval_sets (self : t) (c : cloud) (app_name : string)
    : result (list string) :=
  let eval_sets_dir := _get_eval_sets_dir self app_name in
  match list_blobs c (bucket_name self) eval_sets_dir with
  | Ok names =>
      Ok (sorted
        ((λ name, removesuffix (last_item (split_sep name)) _EVAL_SET_FILE_EXTENSION)
         <$> names))
  | Raise NotFound =>
      Raise (ValueError
        ("App `" ++ app_name ++ "` not found in GCS bucket `" ++
         bucket_name self ++ "`."))
  | Raise e => Raise e
  end.

Section documents.
Context {EvalSet : Type} `{BaseModel EvalSet}.

Definition save_eval_set (self : t) (c : cloud) (path : string)
    (eval_set : EvalSet) : result cloud :=
  upload_from_string c (bucket_name self) path (model_dump_json eval_set).

Definition load_eval_set (self : t) (c : cloud) (path : string)
    : result (option EvalSet) :=
  match download_as_text c (bucket_name self) path with
  | Ok eval_set_data =>
      match model_validate_json eval_set_data with
      | Some eval_set => Ok (Some eval_set)
      | None => Raise ValidationError
      end
  | Raise NotFound => Ok None
  | Raise e => Raise e
  end.
End documents.

End GcsEvalSetStorageManager.

(** ** gcs_eval_set_results_storage_manager.py *)

Module GcsEvalSetResultsStorageManager.

Definition _EVAL_HISTORY_DIR : string := "evals/eval_history".
Definition _EVAL_SET_RESULT_FILE_EXTENSION : string := ".evalset_result.json".

Record t : Type := { bucket_name : string }.

Definition __init__ (c : cloud) (bucket_name : string) : result t :=
  if negb (bucket_exists c bucket_name)
  then Raise (ValueError
    ("Bucket `" ++ bucket_name ++ "` does not exist. Please create it before" ++
     " using the GcsEvalSetResultsStorageManager."))
  else Ok {| bucket_name := bucket_name |}.

Definition _get_eval_history_dir (self : t) (app_name : string) : string :=
  app_name ++ "/" ++ _EVAL_HISTORY_DIR.

Definition get_eval_set_result_path (self : t)
    (app_name eval_set_result_id : string) : string :=
  let eval_history_dir := _get_eval_history_dir self app_name in
  eval_history_dir ++ "/" ++ eval_set_result_id ++ _EVAL_SET_RESULT_FILE_EXTENSION.

Definition list_eval_set_results (self : t) (c : cloud) (app_name : string)
    : result (list string) :=
  let eval_history_dir := _get_eval_history_dir self app_name in
  match list_blobs c (bucket_name self) eval_history_dir with
  | Ok names =>
      Ok (sorted
        ((λ name,
            removesuffix (last_item (split_sep name)) _EVAL_SET_RESULT_FILE_EXTENSION)
         <$> names))
  | Raise NotFound =>
      Raise (ValueError
        ("App `" ++ app_name ++ "` not found in GCS bucket `" ++
         bucket_name self ++ "`."))
  | Raise e => Raise e
  end.

Section documents.
Context {EvalSetResult : Type} `{BaseModel EvalSetResult}.

Definition save_eval_set_result (self : t) (c : cloud) (path : string)
    (eval_set_result : EvalSetResult) : result cloud :=
  upload_from_string c (bucket_name self) path (model_dump_json eval_set_result).

Definition load_eval_set_result (self : t) (c : cloud) (path : string)
    : result (option EvalSetResult) :=
  match download_as_text c (bucket_name self) path with
  | Ok eval_set_result_data =>
      match model_validate_json eval_set_result_data with
      | Some eval_set_result => Ok (Some eval_set_result)
      | None => Raise ValidationError
      end
  | Raise NotFound => Ok None
  | Raise e => Raise e
  end.
End documents.

End GcsEvalSetResultsStorageManager.

(** ** Saving several documents

    [save_each save path_of s docs] saves the documents of [docs], each
    with its id, one after the other, starting in the state [s]; it stops
    at the first save that raises. *)

Fixpoint save_each {S D : Type} (save : S → string → D → result S)
    (path_of : string → string) (s : S) (docs : list (string * D)) : result S :=
  match docs with
  | [] => Ok s
  | (id, d) :: docs' =>
      s' ← save s (path_of id) d;
      save_each save path_of s' docs'
  end.

(** [l] lists the ids [ids]: the same ids, each once, in ascending order. *)
Definition listing_of (ids l : list string) : Prop :=
  l ≡ₚ ids ∧ StronglySorted String.le l ∧ NoDup l.

(** ** A small concrete environment

    Used to run the managers on explicit inputs: documents are notes kept
    as text behind a marker, the locale is ASCII, and UTF-8 decoding is
    restricted to its ASCII range. *)

Module Sample.

Definition note_model : BaseModel string := {|
  model_dump_json d := "note:" ++ d;
  model_validate_json text :=
    if startswith text "note:"
    then Some (substring 5 (String.length text - 5) text)
    else None
|}.

Definition is_ascii_byte (b : byte) : bool := (Byte.to_N b <? 128)%N.

Definition ascii_locale : TextEncoding := {|
  locale_encode := list_byte_of_string;
  utf8_decode data :=
    if forallb is_ascii_byte data then Some (string_of_list_byte data) else None
|}.

(** A file system with an empty home directory as working directory. *)
Definition home : filesystem :=
  {| cwd := ["home"]; entries := {[ ["home"] := Dir ]} |}.

(** The same with an agents directory that holds, for the namespace
    [test_app], a file of each kind that is not a document and a file
    of each kind that the process may not read. *)
Definition library : filesystem :=
  {| cwd := ["home"];
     entries := list_to_map [
       (["home"], Dir);
       (["home"; "agents"], Dir);
       (["home"; "agents"; "test_app"], Dir);
       (["home"; "agents"; "test_app"; "junk.evalset.json"],
          File true true (list_byte_of_string "garbage"));
       (["home"; "agents"; "test_app"; "secret.evalset.json"],
          File false true (list_byte_of_string "note:s"));
       (["home"; "agents"; "test_app"; ".adk"], Dir);
       (["home"; "agents"; "test_app"; ".adk"; "eval_history"], Dir);
       (["home"; "agents"; "test_app"; ".adk"; "eval_history";
         "junk.evalset_result.json"],
          File true true (list_byte_of_string "garbage"));
       (["home"; "agents"; "test_app"; ".adk"; "eval_history";
         "secret.evalset_result.json"],
          File false true (list_byte_of_string "note:s"))
     ] |}.

(** A namespace directory that holds a directory named like an eval set. *)
Definition nested : filesystem :=
  {| cwd := ["home"];
     entries := list_to_map [
       (["home"], Dir);
       (["home"; "agents"], Dir);
       (["home"; "agents"; "test_app"], Dir);
       (["home"; "agents"; "test_app"; "archive.evalset.json"], Dir)
     ] |}.

(** A provider with one empty bucket. *)
Definition provider : cloud := {[ "test_bucket" := ∅ ]}.

(** A bucket that holds, for the namespace [test_app] and each kind, an
    object without the file extension, an object that is not a document
    and an object that the caller may not read. *)
Definition stray_objects : gmap string blob :=
  {[ "test_app/evals/eval_sets/notes.txt" :=
       {| content := "n"; readable_blob := true |};
     "test_app/evals/eval_history/notes.txt" :=
       {| content := "n"; readable_blob := true |};
     "test_app/evals/eval_sets/junk.evalset.json" :=
       {| content := "garbage"; readable_blob := true |};
     "test_app/evals/eval_history/junk.evalset_result.json" :=
       {| content := "garbage"; readable_blob := true |};
     "test_app/evals/eval_sets/locked.evalset.json" :=
       {| content := "note:l"; readable_blob := false |};
     "test_app/evals/eval_history/locked.evalset_result.json" :=
       {| content := "note:l"; readable_blob := false |} ]}.

Definition stocked_provider : cloud := {[ "test_bucket" := stray_objects ]}.

(** A bucket whose objects lie in sibling directories of the namespace
    [test_app]. *)
Definition sibling_objects : gmap string blob :=
  {[ "test_app/evals/eval_sets_old/x.evalset.json" :=
       {| content := "note:x"; readable_blob := true |};
     "test_app/evals/eval_history_old/x.evalset_result.json" :=
       {| content := "note:x"; readable_blob := true |} ]}.

Definition sibling_provider : cloud := {[ "test_bucket" := sibling_objects ]}.

End Sample.

(** * Properties *)

(** ** Results *)

Lemma bind_Ok_inv {A B : Type} (m : result A) (f : A → result B) (y : B) :
  m ≫= f = Ok y → ∃ x, m = Ok x ∧ f x = Ok y.
Proof. destruct m as [x|e]; [|done]. intros Hf. by exists x. Qed.

(** ** Strings *)

Section strings.
Implicit Types (s a b p suf : string) (c : ascii).

Lemma str_app_nil_l s : "" ++ s = s.
Proof. reflexivity. Qed.

Lemma str_app_cons c a b : String c a ++ b = String c (a ++ b).
Proof. reflexivity. Qed.

Lemma str_app_nil_r s : s ++ "" = s.
Proof. induction s as [|c s IH]; [done|]. by rewrite str_app_cons, IH. Qed.

Lemma str_app_assoc a b s : (a ++ b) ++ s = a ++ (b ++ s).
Proof. induction a as [|c a IH]; [done|]. by rewrite !str_app_cons, IH. Qed.

Lemma str_app_length a b : String.length (a ++ b) = String.length a + String.length b.
Proof. induction a as [|c a IH]; [done|]. rewrite str_app_cons. simpl. by rewrite IH. Qed.

Lemma str_eqb_true a b : String.eqb a b = true ↔ a = b.
Proof. apply String.eqb_eq. Qed.

Lemma str_eqb_false a b : String.eqb a b = false ↔ a ≠ b.
Proof. apply String.eqb_neq. Qed.

Lemma substring_app_l a b : substring 0 (String.length a) (a ++ b) = a.
Proof.
  induction a as [|c a IH].
  - rewrite str_app_nil_l. by destruct b.
  - rewrite str_app_cons. simpl. by rewrite IH.
Qed.

Lemma startswith_app p s : startswith (p ++ s) p = true.
Proof.
  unfold startswith. induction p as [|c p IH].
  - rewrite str_app_nil_l. by destruct s.
  - rewrite str_app_cons. simpl. destruct (ascii_dec c c); [done|congruence].
Qed.

Lemma startswith_inv s p : startswith s p = true → ∃ r, s = p ++ r.
Proof.
  unfold startswith. revert s. induction p as [|c p IH]; intros s Hp.
  - by exists s.
  - destruct s as [|c' s]; simpl in Hp; [done|].
    destruct (ascii_dec c c') as [->|]; [|done].
    destruct (IH _ Hp) as [r ->]. by exists r.
Qed.

Lemma endswith_refl s : endswith s s = true.
Proof. destruct s; simpl; by rewrite ?String.eqb_refl, ?Ascii.eqb_refl. Qed.

Lemma endswith_app_l a s suf : endswith s suf = true → endswith (a ++ s) suf = true.
Proof.
  intros Hs. induction a as [|c a IH]; [done|].
  rewrite str_app_cons. simpl. rewrite IH. apply orb_true_r.
Qed.

Lemma endswith_app a suf : endswith (a ++ suf) suf = true.
Proof. apply endswith_app_l, endswith_refl. Qed.

Lemma endswith_inv s suf : endswith s suf = true → ∃ a, s = a ++ suf.
Proof.
  induction s as [|c s IH]; intros Hs.
  - destruct suf; [|done]. by exists "".
  - change (String.eqb (String c s) suf || endswith s suf = true) in Hs.
    apply orb_true_iff in Hs as [Hs|Hs].
    + apply str_eqb_true in Hs as <-. by exists "".
    + destruct (IH Hs) as [a ->]. by exists (String c a).
Qed.

Lemma removesuffix_app a suf : removesuffix (a ++ suf) suf = a.
Proof.
  unfold removesuffix. rewrite endswith_app.
  destruct (String.eqb suf "") eqn:Hsuf; simpl.
  - apply str_eqb_true in Hsuf as ->. apply str_app_nil_r.
  - rewrite str_app_length.
    replace (String.length a + String.length suf - String.length suf)
      with (String.length a) by lia.
    apply substring_app_l.
Qed.

Lemma removesuffix_id s suf : endswith s suf = false → removesuffix s suf = s.
Proof. unfold removesuffix. intros ->. by rewrite andb_false_r. Qed.

Lemma has_sep_cons c s : has_sep (String c s) = is_sep c || has_sep s.
Proof. reflexivity. Qed.

Lemma has_sep_app a b : has_sep (a ++ b) = has_sep a || has_sep b.
Proof.
  induction a as [|c a IH]; [done|].
  by rewrite str_app_cons, !has_sep_cons, IH, orb_assoc.
Qed.

Lemma split_sep_not_nil s : split_sep s ≠ [].
Proof.
  induction s as [|c s IH]; simpl; [done|].
  destruct (is_sep c); [done|]. by destruct (split_sep s).
Qed.

Lemma split_sep_plain s : has_sep s = false → split_sep s = [s].
Proof.
  induction s as [|c s IH]; [done|]. rewrite has_sep_cons. simpl.
  intros [Hc Hs]%orb_false_iff. rewrite Hc. by rewrite (IH Hs).
Qed.

Lemma split_sep_app a b :
  split_sep (a ++ String sep b) = (split_sep a ++ split_sep b)%list.
Proof.
  induction a as [|c a IH].
  - done.
  - rewrite str_app_cons. simpl. rewrite IH. destruct (is_sep c); [done|].
    pose proof (split_sep_not_nil a). by destruct (split_sep a).
Qed.

Lemma last_item_app (l : list string) x : last_item (l ++ [x]) = x.
Proof. unfold last_item. apply last_last. Qed.

Lemma last_item_cons x (l : list string) : l ≠ [] → last_item (x :: l) = last_item l.
Proof. unfold last_item. by destruct l. Qed.

(** A name with a separator splits at its last separator. *)
Lemma has_sep_decompose s :
  has_sep s = true → ∃ a f, s = a ++ String sep f ∧ has_sep f = false.
Proof.
  induction s as [|c s IH]; [done|]. rewrite has_sep_cons.
  destruct (has_sep s) eqn:Hs.
  - intros _. destruct IH as (a & f & -> & Hf); [done|].
    by exists (String c a), f.
  - rewrite orb_false_r. intros Hc. exists "", s. split; [|done].
    apply Ascii.eqb_eq in Hc as ->. done.
Qed.

Lemma last_item_split_app a f :
  has_sep f = false → last_item (split_sep (a ++ String sep f)) = f.
Proof.
  intros Hf. by rewrite split_sep_app, (split_sep_plain f), last_item_app.
Qed.

(** The last component of a name is a suffix of the name. *)
Lemma last_item_split_suffix s : ∃ a, s = a ++ last_item (split_sep s).
Proof.
  destruct (has_sep s) eqn:Hs.
  - destruct (has_sep_decompose s Hs) as (a & f & -> & Hf).
    exists (a ++ String sep ""). rewrite last_item_split_app by done.
    by rewrite str_app_assoc.
  - exists "". by rewrite split_sep_plain.
Qed.

Lemma endswith_last_item s suf :
  endswith (last_item (split_sep s)) suf = true → endswith s suf = true.
Proof.
  destruct (last_item_split_suffix s) as [a Ha]. intros Hl.
  rewrite Ha. by apply endswith_app_l.
Qed.
End strings.

(** ** Sorting *)

Lemma sorted_Permutation l : sorted l ≡ₚ l.
Proof. apply merge_sort_Permutation. Qed.

Lemma elem_of_sorted x l : x ∈ sorted l ↔ x ∈ l.
Proof. by rewrite sorted_Permutation. Qed.

Lemma sorted_StronglySorted l : StronglySorted String.le (sorted l).
Proof. apply StronglySorted_merge_sort; apply _. Qed.

Lemma sorted_NoDup l : NoDup l → NoDup (sorted l).
Proof. by rewrite sorted_Permutation. Qed.

(** The result of [sorted] depends only on the elements of its argument. *)
Lemma sorted_order_independent l1 l2 : l1 ≡ₚ l2 → sorted l1 = sorted l2.
Proof.
  intros Hp. apply (StronglySorted_unique String.le).
  - apply sorted_StronglySorted.
  - apply sorted_StronglySorted.
  - by rewrite !sorted_Permutation.
Qed.

(** ** Identifier validation *)

Lemma fullmatch_spec s :
  GcsEvalSetStorageManager.fullmatch s = true ↔
  s ≠ "" ∧ Forall (λ c, GcsEvalSetStorageManager.in_class c = true) (list_ascii_of_string s).
Proof.
  unfold GcsEvalSetStorageManager.fullmatch.
  rewrite andb_true_iff, negb_true_iff, str_eqb_false, forallb_forall, Forall_forall.
  by setoid_rewrite list_elem_of_In.
Qed.

Lemma _validate_id_accepts self id_name id_value :
  GcsEvalSetStorageManager.fullmatch id_value = true →
  GcsEvalSetStorageManager._validate_id self id_name id_value = Ok tt.
Proof. unfold GcsEvalSetStorageManager._validate_id. by intros ->. Qed.

Lemma _validate_id_rejects self id_name id_value :
  GcsEvalSetStorageManager.fullmatch id_value = false →
  GcsEvalSetStorageManager._validate_id self id_name id_value =
    Raise (ValueError ("Invalid " ++ id_name ++ ". " ++ id_name ++
                       " should have the `^[a-zA-Z0-9_]+$` format")).
Proof. unfold GcsEvalSetStorageManager._validate_id. by intros ->. Qed.

(** ** Path templates *)

Lemma startswith_sep_cons c s : startswith (String c s) "/" = is_sep c.
Proof.
  unfold startswith, is_sep, sep.
  change (String.prefix "/" (String c s))
    with (if ascii_dec "/" c then String.prefix "" s else false).
  destruct (ascii_dec "/" c) as [<-|Hc].
  - by destruct s.
  - symmetry. apply Ascii.eqb_neq. congruence.
Qed.

Lemma startswith_sep_app a b : a ≠ "" → startswith (a ++ b) "/" = startswith a "/".
Proof. destruct a as [|c a]; [done|]. intros _. by rewrite str_app_cons, !startswith_sep_cons. Qed.

Lemma endswith_sep_app a b : b ≠ "" → endswith (a ++ b) "/" = endswith b "/".
Proof.
  intros Hb. induction a as [|c a IH]; [done|].
  rewrite str_app_cons.
  change (String.eqb (String c (a ++ b)) "/" || endswith (a ++ b) "/" = endswith b "/").
  rewrite IH. replace (String.eqb (String c (a ++ b)) "/") with false; [done|].
  symmetry. apply str_eqb_false. intros [= -> Hab].
  destruct a; [|done]. by rewrite str_app_nil_l in Hab.
Qed.

Lemma endswith_sep_cons_sep s : s ≠ "" → endswith (String sep s) "/" = endswith s "/".
Proof. intros Hs. by apply (endswith_sep_app (String sep "") s). Qed.

Lemma str_app_not_nil_l a b : a ≠ "" → a ++ b ≠ "".
Proof. by destruct a. Qed.

Lemma str_app_not_nil_r a b : b ≠ "" → a ++ b ≠ "".
Proof. destruct a; [done|]. by rewrite str_app_cons. Qed.

(** Joining a name to a directory that neither is empty nor ends with a
    separator. *)
Lemma join2_plain path b :
  path ≠ "" → endswith path "/" = false → startswith b "/" = false →
  join2 path b = path ++ "/" ++ b.
Proof.
  intros Hp He Hb. unfold join2. rewrite Hb, He.
  by apply str_eqb_false in Hp as ->.
Qed.

Lemma startswith_file_name id ext :
  startswith id "/" = false → startswith ext "/" = false →
  startswith (id ++ ext) "/" = false.
Proof.
  intros Hid Hext. destruct id as [|c id]; [done|].
  by rewrite startswith_sep_app.
Qed.

Lemma endswith_joined root ns :
  ns ≠ "" → endswith ns "/" = false → endswith (root ++ "/" ++ ns) "/" = false.
Proof.
  intros Hns He. rewrite endswith_sep_app by by apply str_app_not_nil_r.
  change ("/" ++ ns) with (String sep ns). by rewrite endswith_sep_cons_sep.
Qed.

(** ** The object store *)

Section object_store.
Implicit Types (c : cloud) (b : gmap string blob) (name prefix data : string).

Lemma bucket_exists_true c bucket_name :
  bucket_exists c bucket_name = true ↔ is_Some (c !! bucket_name).
Proof. unfold bucket_exists. by rewrite bool_decide_eq_true. Qed.

Lemma bucket_exists_false c bucket_name :
  bucket_exists c bucket_name = false ↔ c !! bucket_name = None.
Proof.
  unfold bucket_exists. rewrite bool_decide_eq_false.
  by rewrite eq_None_not_Some.
Qed.

Lemma elem_of_blob_names b prefix name :
  name ∈ filter (λ name, startswith name prefix) (map_to_list b).*1 ↔
  startswith name prefix = true ∧ is_Some (b !! name).
Proof.
  rewrite list_elem_of_filter, Is_true_true. apply and_iff_compat_l.
  rewrite list_elem_of_fmap. split.
  - intros ([k o] & -> & Hk). apply elem_of_map_to_list in Hk. by exists o.
  - intros [o Ho]. exists (name, o). split; [done|]. by apply elem_of_map_to_list.
Qed.

Lemma blob_names_NoDup b prefix :
  NoDup (filter (λ name, startswith name prefix) (map_to_list b).*1).
Proof. apply NoDup_filter, NoDup_fst_map_to_list. Qed.

Lemma list_blobs_missing_bucket c bucket_name prefix :
  list_blobs c bucket_name prefix = Raise NotFound ↔ c !! bucket_name = None.
Proof. unfold list_blobs. by destruct (c !! bucket_name). Qed.


Lemma upload_succeeds c bucket_name name data :
  bucket_exists c bucket_name = true →
  ∃ c', upload_from_string c bucket_name name data = Ok c'.
Proof.
  intros [b Hb]%bucket_exists_true. unfold upload_from_string.
  rewrite Hb. eauto.
Qed.

(** An upload changes the object it writes and nothing else. *)
Lemma upload_lookup c c' bucket_name name data b :
  c !! bucket_name = Some b →
  upload_from_string c bucket_name name data = Ok c' →
  c' !! bucket_name =
    Some (<[name := {| content := data; readable_blob := true |}]> b).
Proof.
  unfold upload_from_string. intros ->. intros [= <-].
  by rewrite lookup_insert_eq.
Qed.

Lemma download_absent c bucket_name name b :
  c !! bucket_name = Some b → b !! name = None →
  download_as_text c bucket_name name = Raise NotFound.
Proof. unfold download_as_text. by intros -> ->. Qed.
End object_store.

(** ** The file system *)

Section file_system.
Implicit Types (m : gmap (list string) node) (fs : filesystem).
Implicit Types (cur d k t : list string) (cs : list string) (n : node).

Lemma child_of_spec d k x : child_of d k = Some x ↔ k = (d ++ [x])%list.
Proof.
  revert k. induction d as [|y d IH]; intros k; simpl.
  - destruct k as [|z [|z' k]]; split; intros; simplify_eq; done.
  - destruct k as [|z k]; [split; intros; simplify_eq|].
    case_decide as Hyz; [subst; rewrite IH|]; split; intros; simplify_eq; done.
Qed.

Lemma NoDup_omap_inj {A B} (f : A → option B) (l : list A) :
  (∀ x y z, f x = Some z → f y = Some z → x = y) →
  NoDup l → NoDup (omap f l).
Proof.
  intros Hinj. induction 1 as [|x l Hx Hl IH]; simpl; [constructor|].
  destruct (f x) as [z|] eqn:Hfx; [|done].
  constructor; [|done]. rewrite list_elem_of_omap.
  intros (y & Hy & Hfy). by rewrite (Hinj x y z) in Hx.
Qed.

Lemma elem_of_keys m k : k ∈ (map_to_list m).*1 ↔ is_Some (m !! k).
Proof.
  rewrite list_elem_of_fmap. split.
  - intros ([k' n] & -> & Hk). apply elem_of_map_to_list in Hk. by exists n.
  - intros [n Hn]. exists (k, n). split; [done|]. by apply elem_of_map_to_list.
Qed.

Lemma elem_of_children m d x : x ∈ children m d ↔ is_Some (m !! (d ++ [x])%list).
Proof.
  unfold children. rewrite list_elem_of_omap. split.
  - intros (k & Hk & Hc). apply child_of_spec in Hc as ->. by apply elem_of_keys.
  - intros Hx. exists (d ++ [x])%list. split; [by apply elem_of_keys|].
    by apply child_of_spec.
Qed.

Lemma children_NoDup m d : NoDup (children m d).
Proof.
  apply NoDup_omap_inj; [|apply NoDup_fst_map_to_list].
  intros k1 k2 x H1%child_of_spec H2%child_of_spec. congruence.
Qed.

(** The location a path resolves to is determined by its names. *)
Lemma walk_target m cur cs t : walk m cur cs = Ok t → t = foldl step cur cs.
Proof.
  revert cur. induction cs as [|c cs IH]; intros cur; simpl.
  - by intros [= ->].
  - destruct (node_at m cur) as [[]|]; try done. apply IH.
Qed.

(** Resolution looks at directories only: it is not affected by what
    happens to other locations. *)
Lemma walk_mono m m' cur cs t :
  (∀ p, node_at m p = Some Dir → node_at m' p = Some Dir) →
  walk m cur cs = Ok t → walk m' cur cs = Ok t.
Proof.
  intros Hm. revert cur. induction cs as [|c cs IH]; intros cur; simpl; [done|].
  destruct (node_at m cur) as [[]|] eqn:Hcur; try done.
  rewrite (Hm _ Hcur). apply IH.
Qed.

Lemma node_at_insert_ne m t p n :
  t ≠ p → node_at (<[t := n]> m) p = node_at m p.
Proof. intros Hne. destruct p; [done|]. simpl. by rewrite lookup_insert_ne. Qed.


Lemma node_at_insert_dirs m t n p :
  node_at m t ≠ Some Dir →
  node_at m p = Some Dir → node_at (<[t := n]> m) p = Some Dir.
Proof.
  intros Ht Hp. rewrite node_at_insert_ne; [done|]. by intros ->.
Qed.

(** What [write_bytes] leaves behind. *)
Lemma write_bytes_inv fs fs' path data :
  write_bytes fs path data = Ok fs' →
  ∃ t r w,
    resolve fs path = Ok t ∧ t ≠ [] ∧
    node_at (entries fs) t ≠ Some Dir ∧
    (node_at (entries fs) t = None →
       r = true ∧ node_at (entries fs) (removelast t) = Some Dir) ∧
    fs' = {| cwd := cwd fs; entries := <[t := File r w data]> (entries fs) |}.
Proof.
  unfold write_bytes. destruct (resolve fs path) as [t|] eqn:Hres; [|done].
  simpl. intros Hw.
  assert (t ≠ []) as Hne.
  { intros ->. by simpl in Hw. }
  destruct (node_at (entries fs) t) as [[r w old|]|] eqn:Ht.
  - destruct w; [|done]. injection Hw as <-. exists t, r, true. naive_solver.
  - done.
  - destruct (node_at (entries fs) (removelast t)) as [[]|] eqn:Hp; try done.
    injection Hw as <-. exists t, true, true. naive_solver.
Qed.


End file_system.

(** ** Claims on identifiers, keys and construction *)

(** C1 (the code departs from the claim).  [_validate_id] rejects the id
    [bad/id] and the namespace [my app], naming the field and the pattern,
    but nothing calls it: [get_eval_set_path] builds a key from them and
    [list_eval_sets] queries the bucket with them; neither raises. *)
Theorem validate_id_is_never_called :
  let self := {| GcsEvalSetStorageManager.bucket_name := "test_bucket" |} in
  GcsEvalSetStorageManager._validate_id self "eval_set_id" "bad/id" =
    Raise (ValueError
      "Invalid eval_set_id. eval_set_id should have the `^[a-zA-Z0-9_]+$` format") ∧
  GcsEvalSetStorageManager._validate_id self "app_name" "my app" =
    Raise (ValueError
      "Invalid app_name. app_name should have the `^[a-zA-Z0-9_]+$` format") ∧
  GcsEvalSetStorageManager.get_eval_set_path self "my app" "bad/id" =
    "my app/evals/eval_sets/bad/id.evalset.json" ∧
  GcsEvalSetStorageManager.list_eval_sets self Sample.provider "my app" = Ok [].
Proof. repeat split; vm_compute; reflexivity. Qed.

(** C3, as stated, fails: with the agents directory [agents], the
    namespace [/srv] and the id [x], the local path is not
    [agents//srv/x.evalset.json]; [os.path.join] restarts at an absolute
    component. *)
Lemma local_path_restarts_at_absolute_namespace :
  LocalEvalSetStorageManager.get_eval_set_path
    (LocalEvalSetStorageManager.__init__ "agents") "/srv" "x"
  ≠ "agents" ++ "/" ++ "/srv" ++ "/" ++ "x" ++ ".evalset.json".
Proof. vm_compute. discriminate. Qed.

(** C3 (amended).  The object-store keys are
    [{namespace}/evals/eval_sets/{id}.evalset.json] and
    [{namespace}/evals/eval_history/{id}.evalset_result.json] for every
    namespace and id.  The local paths are
    [{root}/{namespace}/{id}.evalset.json] and
    [{root}/{namespace}/.adk/eval_history/{id}.evalset_result.json]
    whenever the root and the namespace are not empty and do not end with
    a slash and neither the namespace nor the id starts with a slash. *)
Theorem path_templates (bucket_name root ns id : string) :
  GcsEvalSetStorageManager.get_eval_set_path
    {| GcsEvalSetStorageManager.bucket_name := bucket_name |} ns id
    = ns ++ "/evals/eval_sets/" ++ id ++ ".evalset.json" ∧
  GcsEvalSetResultsStorageManager.get_eval_set_result_path
    {| GcsEvalSetResultsStorageManager.bucket_name := bucket_name |} ns id
    = ns ++ "/evals/eval_history/" ++ id ++ ".evalset_result.json" ∧
  (root ≠ "" → endswith root "/" = false →
   ns ≠ "" → endswith ns "/" = false → startswith ns "/" = false →
   startswith id "/" = false →
   LocalEvalSetStorageManager.get_eval_set_path
     (LocalEvalSetStorageManager.__init__ root) ns id
     = root ++ "/" ++ ns ++ "/" ++ id ++ ".evalset.json" ∧
   LocalEvalSetResultsStorageManager.get_eval_set_result_path
     (LocalEvalSetResultsStorageManager.__init__ root) ns id
     = root ++ "/" ++ ns ++ "/.adk/eval_history/" ++ id ++ ".evalset_result.json").
Proof.
  split; [|split].
  - unfold GcsEvalSetStorageManager.get_eval_set_path,
      GcsEvalSetStorageManager._get_eval_sets_dir. simpl.
    by rewrite !str_app_assoc.
  - unfold GcsEvalSetResultsStorageManager.get_eval_set_result_path,
      GcsEvalSetResultsStorageManager._get_eval_history_dir. simpl.
    by rewrite !str_app_assoc.
  - intros Hroot Hroot_end Hns Hns_end Hns_start Hid.
    assert (join2 root ns = root ++ "/" ++ ns) as Hdir by by apply join2_plain.
    pose proof (endswith_joined root ns Hns Hns_end) as Hdir_end.
    assert (root ++ "/" ++ ns ≠ "") as Hdir_ne by by apply str_app_not_nil_l.
    split.
    + unfold LocalEvalSetStorageManager.get_eval_set_path, os_path_join. simpl.
      rewrite Hdir, join2_plain; [|done|done|by apply startswith_file_name].
      by rewrite !str_app_assoc.
    + unfold LocalEvalSetResultsStorageManager.get_eval_set_result_path,
        os_path_join. simpl.
      rewrite Hdir, (join2_plain _ LocalEvalSetResultsStorageManager._ADK_EVAL_HISTORY_DIR);
        [|done|done|done].
      rewrite join2_plain; [| |  |by apply startswith_file_name].
      * by rewrite !str_app_assoc.
      * by apply str_app_not_nil_l.
      * by rewrite endswith_sep_app.
Qed.

Lemma path_templates_witness :
  LocalEvalSetStorageManager.get_eval_set_path
    (LocalEvalSetStorageManager.__init__ "agents") "test_app" "test_eval_set"
    = "agents/test_app/test_eval_set.evalset.json" ∧
  LocalEvalSetResultsStorageManager.get_eval_set_result_path
    (LocalEvalSetResultsStorageManager.__init__ "agents") "test_app" "r1"
    = "agents/test_app/.adk/eval_history/r1.evalset_result.json".
Proof.
  destruct (path_templates "test_bucket" "agents" "test_app" "test_eval_set")
    as (_ & _ & Hsets).
  destruct (path_templates "test_bucket" "agents" "test_app" "r1")
    as (_ & _ & Hresults).
  split.
  - apply Hsets; (discriminate || reflexivity).
  - apply Hresults; (discriminate || reflexivity).
Defined.

(** C5.  When the prefix query of the bucket reports not-found, listing
    raises a [ValueError] whose message names the namespace and the
    bucket, on both object-store managers. *)
Theorem gcs_list_namespace_not_found (c : cloud) (bucket_name ns : string) :
  (list_blobs c bucket_name (ns ++ "/evals/eval_sets") = Raise NotFound →
   GcsEvalSetStorageManager.list_eval_sets
     {| GcsEvalSetStorageManager.bucket_name := bucket_name |} c ns
   = Raise (ValueError
       ("App `" ++ ns ++ "` not found in GCS bucket `" ++ bucket_name ++ "`."))) ∧
  (list_blobs c bucket_name (ns ++ "/evals/eval_history") = Raise NotFound →
   GcsEvalSetResultsStorageManager.list_eval_set_results
     {| GcsEvalSetResultsStorageManager.bucket_name := bucket_name |} c ns
   = Raise (ValueError
       ("App `" ++ ns ++ "` not found in GCS bucket `" ++ bucket_name ++ "`."))).
Proof.
  split; intros Hq.
  - unfold GcsEvalSetStorageManager.list_eval_sets,
      GcsEvalSetStorageManager._get_eval_sets_dir. simpl.
    change GcsEvalSetStorageManager._EVAL_SETS_DIR with "evals/eval_sets".
    change ("/" ++ "evals/eval_sets") with "/evals/eval_sets". by rewrite Hq.
  - unfold GcsEvalSetResultsStorageManager.list_eval_set_results,
      GcsEvalSetResultsStorageManager._get_eval_history_dir. simpl.
    change GcsEvalSetResultsStorageManager._EVAL_HISTORY_DIR with "evals/eval_history".
    change ("/" ++ "evals/eval_history") with "/evals/eval_history". by rewrite Hq.
Qed.

Lemma gcs_list_namespace_not_found_witness :
  GcsEvalSetStorageManager.list_eval_sets
    {| GcsEvalSetStorageManager.bucket_name := "gone" |} Sample.provider "test_app"
  = Raise (ValueError "App `test_app` not found in GCS bucket `gone`.") ∧
  GcsEvalSetResultsStorageManager.list_eval_set_results
    {| GcsEvalSetResultsStorageManager.bucket_name := "gone" |} Sample.provider "test_app"
  = Raise (ValueError "App `test_app` not found in GCS bucket `gone`.").
Proof.
  destruct (gcs_list_namespace_not_found Sample.provider "gone" "test_app")
    as [Hsets Hresults].
  split.
  - apply Hsets. reflexivity.
  - apply Hresults. reflexivity.
Defined.

(** C8.  Constructing an object-store manager for a bucket the provider
    reports as non-existent raises a [ValueError] naming the bucket; no
    manager is returned, so nothing can be saved, loaded or listed with
    it.  For a bucket that exists construction returns the manager. *)
Theorem gcs_init_checks_bucket (c : cloud) (bucket_name : string) :
  (bucket_exists c bucket_name = false →
   GcsEvalSetStorageManager.__init__ c bucket_name
   = Raise (ValueError
       ("Bucket `" ++ bucket_name ++ "` does not exist. Please create it before" ++
        " using the GcsEvalSetStorageManager.")) ∧
   GcsEvalSetResultsStorageManager.__init__ c bucket_name
   = Raise (ValueError
       ("Bucket `" ++ bucket_name ++ "` does not exist. Please create it before" ++
        " using the GcsEvalSetResultsStorageManager."))) ∧
  (bucket_exists c bucket_name = true →
   GcsEvalSetStorageManager.__init__ c bucket_name
   = Ok {| GcsEvalSetStorageManager.bucket_name := bucket_name |} ∧
   GcsEvalSetResultsStorageManager.__init__ c bucket_name
   = Ok {| GcsEvalSetResultsStorageManager.bucket_name := bucket_name |}).
Proof.
  unfold GcsEvalSetStorageManager.__init__, GcsEvalSetResultsStorageManager.__init__.
  split; intros ->; done.
Qed.

Lemma gcs_init_checks_bucket_witness :
  (GcsEvalSetStorageManager.__init__ Sample.provider "missing"
   = Raise (ValueError
       "Bucket `missing` does not exist. Please create it before using the GcsEvalSetStorageManager.") ∧
   GcsEvalSetResultsStorageManager.__init__ Sample.provider "missing"
   = Raise (ValueError
       "Bucket `missing` does not exist. Please create it before using the GcsEvalSetResultsStorageManager.")) ∧
  (GcsEvalSetStorageManager.__init__ Sample.provider "test_bucket"
   = Ok {| GcsEvalSetStorageManager.bucket_name := "test_bucket" |} ∧
   GcsEvalSetResultsStorageManager.__init__ Sample.provider "test_bucket"
   = Ok {| GcsEvalSetResultsStorageManager.bucket_name := "test_bucket" |}).
Proof.
  split.
  - apply (proj1 (gcs_init_checks_bucket Sample.provider "missing")). reflexivity.
  - apply (proj2 (gcs_init_checks_bucket Sample.provider "test_bucket")). reflexivity.
Defined.

(** ** Listing an object store *)

(** The id recovered from an object name. *)
Lemma id_of_saved_name dir id ext :
  has_sep id = false → has_sep ext = false →
  removesuffix (last_item (split_sep (dir ++ "/" ++ id ++ ext))) ext = id.
Proof.
  intros Hid Hext. change ("/" ++ id ++ ext) with (String sep (id ++ ext)).
  rewrite last_item_split_app; [apply removesuffix_app|].
  by rewrite has_sep_app, Hid, Hext.
Qed.

Lemma id_of_other_name name ext :
  endswith name ext = false →
  removesuffix (last_item (split_sep name)) ext = last_item (split_sep name).
Proof.
  intros Hname. apply removesuffix_id.
  destruct (endswith (last_item (split_sep name)) ext) eqn:Hlast; [|done].
  apply endswith_last_item in Hlast. congruence.
Qed.

Lemma listed_without_extension (b : gmap string blob) prefix ext name :
  is_Some (b !! name) → startswith name prefix = true →
  endswith name ext = false →
  last_item (split_sep name) ∈
    sorted ((λ name, removesuffix (last_item (split_sep name)) ext) <$>
            filter (λ name, startswith name prefix) (map_to_list b).*1).
Proof.
  intros Hb Hp Hext. apply elem_of_sorted, list_elem_of_fmap.
  exists name. split; [by rewrite id_of_other_name|].
  by apply elem_of_blob_names.
Qed.

(** C10.  The object-store managers list every object under the prefix of
    the namespace: an object whose name does not end with the extension
    contributes the last slash-separated component of its name,
    unchanged. *)
Theorem gcs_list_has_no_suffix_filter (c : cloud) (b : gmap string blob)
    (bucket_name ns name : string) :
  c !! bucket_name = Some b → is_Some (b !! name) →
  (startswith name (ns ++ "/evals/eval_sets") = true →
   endswith name ".evalset.json" = false →
   ∃ ids,
     GcsEvalSetStorageManager.list_eval_sets
       {| GcsEvalSetStorageManager.bucket_name := bucket_name |} c ns = Ok ids ∧
     last_item (split_sep name) ∈ ids) ∧
  (startswith name (ns ++ "/evals/eval_history") = true →
   endswith name ".evalset_result.json" = false →
   ∃ ids,
     GcsEvalSetResultsStorageManager.list_eval_set_results
       {| GcsEvalSetResultsStorageManager.bucket_name := bucket_name |} c ns = Ok ids ∧
     last_item (split_sep name) ∈ ids).
Proof.
  intros Hc Hb. split; intros Hp Hext.
  - unfold GcsEvalSetStorageManager.list_eval_sets, list_blobs. simpl. rewrite Hc.
    eexists. split; [done|]. by apply listed_without_extension.
  - unfold GcsEvalSetResultsStorageManager.list_eval_set_results, list_blobs.
    simpl. rewrite Hc.
    eexists. split; [done|]. by apply listed_without_extension.
Qed.

(** By contrast a local listing holds only ids of entries that end with
    the extension. *)
Lemma local_list_keeps_only_extension (f : string → string) ext files x :
  x ∈ sorted (f <$> filter (λ file, endswith file ext) files) →
  ∃ file, file ∈ files ∧ endswith file ext = true ∧ x = f file.
Proof.
  intros (file & -> & Hfile)%elem_of_sorted%list_elem_of_fmap.
  apply list_elem_of_filter in Hfile as [Hext%Is_true_true Hin]. eauto.
Qed.

Lemma gcs_list_has_no_suffix_filter_witness :
  (∃ ids,
     GcsEvalSetStorageManager.list_eval_sets
       {| GcsEvalSetStorageManager.bucket_name := "test_bucket" |}
       Sample.stocked_provider "test_app" = Ok ids ∧
     "notes.txt" ∈ ids) ∧
  (∃ ids,
     GcsEvalSetResultsStorageManager.list_eval_set_results
       {| GcsEvalSetResultsStorageManager.bucket_name := "test_bucket" |}
       Sample.stocked_provider "test_app" = Ok ids ∧
     "notes.txt" ∈ ids).
Proof.
  split.
  - refine (proj1 (gcs_list_has_no_suffix_filter Sample.stocked_provider
             Sample.stray_objects "test_bucket" "test_app"
             "test_app/evals/eval_sets/notes.txt" _ _) _ _);
      [reflexivity | by eexists | reflexivity | reflexivity].
  - refine (proj2 (gcs_list_has_no_suffix_filter Sample.stocked_provider
             Sample.stray_objects "test_bucket" "test_app"
             "test_app/evals/eval_history/notes.txt" _ _) _ _);
      [reflexivity | by eexists | reflexivity | reflexivity].
Defined.

(** ** Loading and saving documents *)

Section local_documents.
Context {D : Type} `{BaseModel D} `{TextEncoding}.
Implicit Types (fs : filesystem) (path : string) (d : D).


Lemma read_text_absent fs path :
  stat fs path = Raise FileNotFoundError →
  read_text_utf8 fs path = Raise FileNotFoundError.
Proof. unfold read_text_utf8, read_bytes. by intros ->. Qed.

(** The two local managers save and load in the same way. *)
Lemma local_save_eval_set_unfold self fs path d :
  LocalEvalSetStorageManager.save_eval_set self fs path d =
    (fs ← (if negb (os_path_exists fs (dirname path))
           then os_makedirs fs (dirname path) else Ok fs);
     write_text fs path (model_dump_json d)).
Proof. reflexivity. Qed.

Lemma local_save_result_unfold self fs path d :
  LocalEvalSetResultsStorageManager.save_eval_set_result self fs path d =
    (fs ← (if negb (os_path_exists fs (dirname path))
           then os_makedirs fs (dirname path) else Ok fs);
     write_text fs path (model_dump_json d)).
Proof. reflexivity. Qed.

Lemma local_load_results_eq self self' fs path :
  LocalEvalSetResultsStorageManager.load_eval_set_result self fs path =
  LocalEvalSetStorageManager.load_eval_set (EvalSet := D) self' fs path.
Proof. reflexivity. Qed.


Lemma local_load_absent self fs path :
  stat fs path = Raise FileNotFoundError →
  LocalEvalSetStorageManager.load_eval_set (EvalSet := D) self fs path = Ok None.
Proof.
  intros Hst. unfold LocalEvalSetStorageManager.load_eval_set.
  by rewrite read_text_absent.
Qed.

Lemma local_load_propagates self fs path e :
  read_text_utf8 fs path = Raise e → e ≠ FileNotFoundError →
  LocalEvalSetStorageManager.load_eval_set (EvalSet := D) self fs path = Raise e.
Proof.
  intros Hr He. unfold LocalEvalSetStorageManager.load_eval_set. rewrite Hr.
  by destruct e.
Qed.

Lemma local_load_malformed self fs path text :
  read_text_utf8 fs path = Ok text → model_validate_json (D := D) text = None →
  LocalEvalSetStorageManager.load_eval_set (EvalSet := D) self fs path
  = Raise ValidationError.
Proof.
  intros Hr Hv. unfold LocalEvalSetStorageManager.load_eval_set.
  by rewrite Hr, Hv.
Qed.
End local_documents.

Section gcs_documents.
Context {D : Type} `{BaseModel D}.
Implicit Types (c : cloud) (path : string) (d : D).

Lemma gcs_load_results_eq bucket_name c path :
  GcsEvalSetResultsStorageManager.load_eval_set_result
    {| GcsEvalSetResultsStorageManager.bucket_name := bucket_name |} c path =
  GcsEvalSetStorageManager.load_eval_set (EvalSet := D)
    {| GcsEvalSetStorageManager.bucket_name := bucket_name |} c path.
Proof. reflexivity. Qed.

Lemma gcs_save_results_eq bucket_name c path d :
  GcsEvalSetResultsStorageManager.save_eval_set_result
    {| GcsEvalSetResultsStorageManager.bucket_name := bucket_name |} c path d =
  GcsEvalSetStorageManager.save_eval_set
    {| GcsEvalSetStorageManager.bucket_name := bucket_name |} c path d.
Proof. reflexivity. Qed.


Lemma gcs_load_absent self c path :
  (∀ b, c !! GcsEvalSetStorageManager.bucket_name self = Some b → b !! path = None) →
  GcsEvalSetStorageManager.load_eval_set (EvalSet := D) self c path = Ok None.
Proof.
  intros Habs. unfold GcsEvalSetStorageManager.load_eval_set, download_as_text.
  destruct (c !! GcsEvalSetStorageManager.bucket_name self) as [b|]; [|done].
  by rewrite (Habs b).
Qed.

Lemma gcs_load_propagates self c path e :
  download_as_text c (GcsEvalSetStorageManager.bucket_name self) path = Raise e →
  e ≠ NotFound →
  GcsEvalSetStorageManager.load_eval_set (EvalSet := D) self c path = Raise e.
Proof.
  intros Hr He. unfold GcsEvalSetStorageManager.load_eval_set. rewrite Hr.
  by destruct e.
Qed.

Lemma gcs_load_malformed self c path text :
  download_as_text c (GcsEvalSetStorageManager.bucket_name self) path = Ok text →
  model_validate_json (D := D) text = None →
  GcsEvalSetStorageManager.load_eval_set (EvalSet := D) self c path
  = Raise ValidationError.
Proof.
  intros Hr Hv. unfold GcsEvalSetStorageManager.load_eval_set.
  by rewrite Hr, Hv.
Qed.
End gcs_documents.

(** ** Claims on loading, saving and missing directories *)

(** C2 (the code departs from the claim).  In a file system where the
    directory of the namespace [ghost] does not exist,
    [list_eval_set_results] returns the empty list, as it checks
    [os.path.exists] first, but [list_eval_sets] calls [os.listdir]
    without that check and raises [FileNotFoundError]. *)
Theorem local_list_eval_sets_raises_on_missing_namespace :
  LocalEvalSetResultsStorageManager.list_eval_set_results
    (LocalEvalSetResultsStorageManager.__init__ "agents") Sample.home "ghost"
  = Ok [] ∧
  LocalEvalSetStorageManager.list_eval_sets
    (LocalEvalSetStorageManager.__init__ "agents") Sample.home "ghost"
  = Raise FileNotFoundError.
Proof. split; vm_compute; reflexivity. Qed.

(** The two behaviours in general. *)
Lemma list_eval_set_results_missing_directory self fs ns :
  os_path_exists fs
    (LocalEvalSetResultsStorageManager._get_eval_history_dir self ns) = false →
  LocalEvalSetResultsStorageManager.list_eval_set_results self fs ns = Ok [].
Proof.
  unfold LocalEvalSetResultsStorageManager.list_eval_set_results. simpl.
  by intros ->.
Qed.

Lemma list_eval_sets_missing_directory self fs ns :
  stat fs (os_path_join (LocalEvalSetStorageManager._agents_dir self) [ns])
    = Raise FileNotFoundError →
  LocalEvalSetStorageManager.list_eval_sets self fs ns = Raise FileNotFoundError.
Proof.
  unfold LocalEvalSetStorageManager.list_eval_sets, os_listdir. simpl.
  by intros ->.
Qed.

Section claims_on_documents.
Context {EvalSet EvalSetResult : Type}.
Context `{BaseModel EvalSet} `{BaseModel EvalSetResult} `{TextEncoding}.


(** C7.  Loading from a path at which nothing is stored returns [None]
    on the four managers; every other failure of the read propagates:
    an exception of the file system or of the provider other than
    not-found, bytes that are not UTF-8, and text that is not a
    document. *)
Theorem load_absent_is_none (root bucket_name ns id : string) :
  let local_sets := LocalEvalSetStorageManager.__init__ root in
  let local_results := LocalEvalSetResultsStorageManager.__init__ root in
  let gcs_sets := {| GcsEvalSetStorageManager.bucket_name := bucket_name |} in
  let gcs_results := {| GcsEvalSetResultsStorageManager.bucket_name := bucket_name |} in
  let p1 := LocalEvalSetStorageManager.get_eval_set_path local_sets ns id in
  let p2 := LocalEvalSetResultsStorageManager.get_eval_set_result_path local_results ns id in
  let k1 := GcsEvalSetStorageManager.get_eval_set_path gcs_sets ns id in
  let k2 := GcsEvalSetResultsStorageManager.get_eval_set_result_path gcs_results ns id in
  (∀ fs, stat fs p1 = Raise FileNotFoundError →
     LocalEvalSetStorageManager.load_eval_set (EvalSet := EvalSet) local_sets fs p1
     = Ok None) ∧
  (∀ fs, stat fs p2 = Raise FileNotFoundError →
     LocalEvalSetResultsStorageManager.load_eval_set_result
       (EvalSetResult := EvalSetResult) local_results fs p2 = Ok None) ∧
  (∀ c : cloud, (∀ b, c !! bucket_name = Some b → b !! k1 = None) →
     GcsEvalSetStorageManager.load_eval_set (EvalSet := EvalSet) gcs_sets c k1
     = Ok None) ∧
  (∀ c : cloud, (∀ b, c !! bucket_name = Some b → b !! k2 = None) →
     GcsEvalSetResultsStorageManager.load_eval_set_result
       (EvalSetResult := EvalSetResult) gcs_results c k2 = Ok None) ∧
  (∀ fs e, e ≠ FileNotFoundError →
     (read_text_utf8 fs p1 = Raise e →
      LocalEvalSetStorageManager.load_eval_set (EvalSet := EvalSet) local_sets fs p1
      = Raise e) ∧
     (read_text_utf8 fs p2 = Raise e →
      LocalEvalSetResultsStorageManager.load_eval_set_result
        (EvalSetResult := EvalSetResult) local_results fs p2 = Raise e)) ∧
  (∀ (c : cloud) e, e ≠ NotFound →
     (download_as_text c bucket_name k1 = Raise e →
      GcsEvalSetStorageManager.load_eval_set (EvalSet := EvalSet) gcs_sets c k1
      = Raise e) ∧
     (download_as_text c bucket_name k2 = Raise e →
      GcsEvalSetResultsStorageManager.load_eval_set_result
        (EvalSetResult := EvalSetResult) gcs_results c k2 = Raise e)) ∧
  (∀ fs text,
     (read_text_utf8 fs p1 = Ok text →
      model_validate_json (D := EvalSet) text = None →
      LocalEvalSetStorageManager.load_eval_set (EvalSet := EvalSet) local_sets fs p1
      = Raise ValidationError) ∧
     (read_text_utf8 fs p2 = Ok text →
      model_validate_json (D := EvalSetResult) text = None →
      LocalEvalSetResultsStorageManager.load_eval_set_result
        (EvalSetResult := EvalSetResult) local_results fs p2
      = Raise ValidationError)) ∧
  (∀ (c : cloud) text,
     (download_as_text c bucket_name k1 = Ok text →
      model_validate_json (D := EvalSet) text = None →
      GcsEvalSetStorageManager.load_eval_set (EvalSet := EvalSet) gcs_sets c k1
      = Raise ValidationError) ∧
     (download_as_text c bucket_name k2 = Ok text →
      model_validate_json (D := EvalSetResult) text = None →
      GcsEvalSetResultsStorageManager.load_eval_set_result
        (EvalSetResult := EvalSetResult) gcs_results c k2
      = Raise ValidationError)).
Proof.
  intros. repeat split; intros.
  - by apply local_load_absent.
  - by apply (local_load_absent local_sets).
  - by apply gcs_load_absent.
  - by apply (gcs_load_absent
      {| GcsEvalSetStorageManager.bucket_name := bucket_name |}).
  - by apply local_load_propagates.
  - by apply (local_load_propagates local_sets).
  - by apply gcs_load_propagates.
  - by apply (gcs_load_propagates
      {| GcsEvalSetStorageManager.bucket_name := bucket_name |}).
  - by apply local_load_malformed with text.
  - by apply (local_load_malformed local_sets) with text.
  - by apply gcs_load_malformed with text.
  - by apply (gcs_load_malformed
      {| GcsEvalSetStorageManager.bucket_name := bucket_name |}) with text.
Qed.
End claims_on_documents.


Lemma load_absent_is_none_witness :
  let sets := LocalEvalSetStorageManager.__init__ "agents" in
  let results := LocalEvalSetResultsStorageManager.__init__ "agents" in
  let gcs_sets := {| GcsEvalSetStorageManager.bucket_name := "test_bucket" |} in
  let gcs_results := {| GcsEvalSetResultsStorageManager.bucket_name := "test_bucket" |} in
  let local_sets_load := @LocalEvalSetStorageManager.load_eval_set string
    Sample.note_model Sample.ascii_locale sets in
  let local_results_load := @LocalEvalSetResultsStorageManager.load_eval_set_result
    string Sample.note_model Sample.ascii_locale results in
  let gcs_sets_load := @GcsEvalSetStorageManager.load_eval_set string
    Sample.note_model gcs_sets in
  let gcs_results_load := @GcsEvalSetResultsStorageManager.load_eval_set_result string
    Sample.note_model gcs_results in
  local_sets_load Sample.library
    (LocalEvalSetStorageManager.get_eval_set_path sets "test_app" "r7") = Ok None ∧
  local_results_load Sample.library
    (LocalEvalSetResultsStorageManager.get_eval_set_result_path results "test_app" "r7")
    = Ok None ∧
  gcs_sets_load Sample.stocked_provider
    (GcsEvalSetStorageManager.get_eval_set_path gcs_sets "test_app" "r7") = Ok None ∧
  gcs_results_load Sample.stocked_provider
    (GcsEvalSetResultsStorageManager.get_eval_set_result_path gcs_results "test_app" "r7")
    = Ok None ∧
  local_sets_load Sample.library
    (LocalEvalSetStorageManager.get_eval_set_path sets "test_app" "secret")
    = Raise PermissionError ∧
  local_results_load Sample.library
    (LocalEvalSetResultsStorageManager.get_eval_set_result_path results "test_app" "secret")
    = Raise PermissionError ∧
  gcs_sets_load Sample.stocked_provider
    (GcsEvalSetStorageManager.get_eval_set_path gcs_sets "test_app" "locked")
    = Raise Forbidden ∧
  gcs_results_load Sample.stocked_provider
    (GcsEvalSetResultsStorageManager.get_eval_set_result_path gcs_results "test_app" "locked")
    = Raise Forbidden ∧
  local_sets_load Sample.library
    (LocalEvalSetStorageManager.get_eval_set_path sets "test_app" "junk")
    = Raise ValidationError ∧
  local_results_load Sample.library
    (LocalEvalSetResultsStorageManager.get_eval_set_result_path results "test_app" "junk")
    = Raise ValidationError ∧
  gcs_sets_load Sample.stocked_provider
    (GcsEvalSetStorageManager.get_eval_set_path gcs_sets "test_app" "junk")
    = Raise ValidationError ∧
  gcs_results_load Sample.stocked_provider
    (GcsEvalSetResultsStorageManager.get_eval_set_result_path gcs_results "test_app" "junk")
    = Raise ValidationError.
Proof.
  intros.
  pose proof (@load_absent_is_none string string Sample.note_model Sample.note_model
                Sample.ascii_locale "agents" "test_bucket" "test_app") as T.
  destruct (T "r7") as (A1 & A2 & A3 & A4 & _).
  destruct (T "secret") as (_ & _ & _ & _ & B1 & _).
  destruct (T "locked") as (_ & _ & _ & _ & _ & B2 & _).
  destruct (T "junk") as (_ & _ & _ & _ & _ & _ & C1 & C2).
  repeat apply conj.
  - apply A1. vm_compute. reflexivity.
  - apply A2. vm_compute. reflexivity.
  - apply A3. intros b Hb. unfold Sample.stocked_provider in Hb.
    rewrite lookup_singleton_eq in Hb. injection Hb as <-.
    vm_compute. reflexivity.
  - apply A4. intros b Hb. unfold Sample.stocked_provider in Hb.
    rewrite lookup_singleton_eq in Hb. injection Hb as <-.
    vm_compute. reflexivity.
  - apply (B1 Sample.library PermissionError); [discriminate|vm_compute; reflexivity].
  - apply (B1 Sample.library PermissionError); [discriminate|vm_compute; reflexivity].
  - apply (B2 Sample.stocked_provider Forbidden); [discriminate|reflexivity].
  - apply (B2 Sample.stocked_provider Forbidden); [discriminate|reflexivity].
  - apply (C1 Sample.library "garbage"); [vm_compute|]; reflexivity.
  - apply (C1 Sample.library "garbage"); [vm_compute|]; reflexivity.
  - apply (C2 Sample.stocked_provider "garbage"); reflexivity.
  - apply (C2 Sample.stocked_provider "garbage"); reflexivity.
Defined.

(** ** Paths of saved documents *)

Section paths.
Implicit Types (s a b p f : string) (c : ascii).

Lemma is_sep_sep : is_sep sep = true.
Proof. reflexivity. Qed.

Lemma components_nil : components "" = [].
Proof. reflexivity. Qed.

Lemma components_app_sep a b :
  components (a ++ String sep b) = (components a ++ components b)%list.
Proof. unfold components. by rewrite split_sep_app, filter_app. Qed.

Lemma components_seps k : components (seps k) = [].
Proof.
  induction k as [|k IH]; [done|].
  change (seps (S k)) with ("" ++ String sep (seps k)).
  by rewrite components_app_sep, IH.
Qed.

Lemma components_app_seps a k : components (a ++ seps k) = components a.
Proof.
  destruct k as [|k]; simpl.
  - by rewrite str_app_nil_r.
  - by rewrite components_app_sep, components_seps, app_nil_r.
Qed.

Lemma components_plain f :
  has_sep f = false → f ≠ "" → f ≠ "." → components f = [f].
Proof.
  intros Hf Hne Hdot. unfold components. rewrite split_sep_plain by done.
  rewrite filter_cons_True; [done|]. by split.
Qed.

Lemma rstrip_sep_cons c s :
  rstrip_sep (String c s) =
    if is_sep c && String.eqb (rstrip_sep s) "" then "" else String c (rstrip_sep s).
Proof. reflexivity. Qed.

(** [rstrip] removes a run of separators at the end. *)
Lemma rstrip_sep_spec s : ∃ k, s = rstrip_sep s ++ seps k.
Proof.
  induction s as [|c s [k IH]]; [by exists 0|].
  rewrite rstrip_sep_cons.
  destruct (is_sep c) eqn:Hc; simpl.
  - destruct (String.eqb_spec (rstrip_sep s) "") as [He|He].
    + exists (S k). rewrite He in IH. rewrite str_app_nil_l in IH.
      apply Ascii.eqb_eq in Hc as ->. rewrite str_app_nil_l. simpl. by f_equal.
    + exists k. rewrite str_app_cons. by f_equal.
  - exists k. rewrite str_app_cons. by f_equal.
Qed.

Lemma all_sep_cons c s : all_sep (String c s) = is_sep c && all_sep s.
Proof. reflexivity. Qed.

Lemma rstrip_sep_nil_iff s : rstrip_sep s = "" ↔ all_sep s = true.
Proof.
  induction s as [|c s IH]; [done|].
  rewrite rstrip_sep_cons, all_sep_cons.
  destruct (is_sep c); simpl; [|done].
  destruct (String.eqb_spec (rstrip_sep s) "") as [He|He].
  - split; [|done]. intros _. by apply IH.
  - split; [done|]. intros Ha. by apply IH in Ha.
Qed.

Lemma components_rstrip s : components (rstrip_sep s) = components s.
Proof.
  destruct (rstrip_sep_spec s) as [k Hk]. rewrite Hk at 2.
  by rewrite components_app_seps.
Qed.

Lemma startswith_rstrip s :
  rstrip_sep s ≠ "" → startswith (rstrip_sep s) "/" = startswith s "/".
Proof.
  intros Hne. destruct (rstrip_sep_spec s) as [k Hk]. rewrite Hk at 2.
  by rewrite startswith_sep_app.
Qed.

Lemma head_of_plain f : has_sep f = false → head_of f = "".
Proof.
  destruct f as [|c f]; [done|]. rewrite has_sep_cons. simpl.
  by intros ->.
Qed.

Lemma tail_of_plain f : has_sep f = false → tail_of f = f.
Proof.
  destruct f as [|c f]; [done|]. rewrite has_sep_cons. simpl.
  by intros ->.
Qed.

Lemma head_of_app a f :
  has_sep f = false → head_of (a ++ String sep f) = a ++ String sep "".
Proof.
  intros Hf. induction a as [|c a IH].
  - rewrite !str_app_nil_l. simpl. by rewrite head_of_plain.
  - rewrite !str_app_cons. simpl. rewrite IH.
    rewrite has_sep_app, has_sep_cons, is_sep_sep. simpl.
    by rewrite !orb_true_r.
Qed.

Lemma startswith_plain f : has_sep f = false → startswith f "/" = false.
Proof.
  destruct f as [|c f]; [done|]. rewrite has_sep_cons, startswith_sep_cons.
  by intros [-> _]%orb_false_iff.
Qed.

(** The two forms of a file joined to a directory. *)
Lemma join2_file p f :
  has_sep f = false →
  join2 p f = f ∧ p = "" ∨
  p ≠ "" ∧ ∃ q, join2 p f = q ++ String sep f ∧
                (p = q ∨ p = q ++ String sep "").
Proof.
  intros Hf. unfold join2. rewrite (startswith_plain f Hf).
  destruct (String.eqb_spec p "") as [->|Hp]; simpl; [by left|]. right.
  split; [done|].
  destruct (endswith p "/") eqn:He.
  - apply endswith_inv in He as [q ->]. exists q. split; [|by right].
    by rewrite str_app_assoc.
  - exists p. split; [done|by left].
Qed.
End paths.

Section joined_paths.
Implicit Types (p f : string).

Lemma components_join2 p f :
  has_sep f = false → f ≠ "" → f ≠ "." →
  components (join2 p f) = (components p ++ [f])%list.
Proof.
  intros Hf Hne Hdot.
  destruct (join2_file p f Hf) as [[-> ->]|(Hp & q & -> & Hq)].
  - by rewrite components_plain.
  - rewrite components_app_sep, (components_plain f) by done.
    destruct Hq as [->| ->]; [done|].
    by rewrite components_app_sep, components_nil, app_nil_r.
Qed.

Lemma startswith_join2 p f :
  has_sep f = false → p ≠ "" →
  startswith (join2 p f) "/" = startswith p "/".
Proof.
  intros Hf Hp.
  destruct (join2_file p f Hf) as [[_ ->]|(_ & q & -> & Hq)]; [done|].
  destruct Hq as [->| ->].
  - by rewrite startswith_sep_app.
  - destruct q as [|c q].
    + by rewrite !str_app_nil_l, !startswith_sep_cons.
    + by rewrite !str_app_cons, !startswith_sep_cons.
Qed.

Lemma join2_not_nil p f : f ≠ "" → has_sep f = false → join2 p f ≠ "".
Proof.
  intros Hne Hf.
  destruct (join2_file p f Hf) as [[-> _]|(_ & q & -> & _)]; [done|].
  by apply str_app_not_nil_r.
Qed.

Lemma dirname_join2_nil f : has_sep f = false → dirname (join2 "" f) = "".
Proof.
  intros Hf. destruct (join2_file "" f Hf) as [[-> _]|(Hp & _)]; [|done].
  unfold dirname. by rewrite head_of_plain.
Qed.

(** The directory of a file joined to a directory names that directory. *)
Lemma dirname_join2 p f :
  has_sep f = false → p ≠ "" →
  dirname (join2 p f) ≠ "" ∧
  components (dirname (join2 p f)) = components p ∧
  startswith (dirname (join2 p f)) "/" = startswith p "/".
Proof.
  intros Hf Hp.
  destruct (join2_file p f Hf) as [[_ ->]|(_ & q & -> & Hq)]; [done|].
  unfold dirname. rewrite head_of_app by done.
  set (h := q ++ String sep "").
  assert (h ≠ "") as Hh by (by apply str_app_not_nil_r).
  assert (components h = components p) as Hcomp.
  { unfold h. rewrite components_app_sep, components_nil, app_nil_r.
    destruct Hq as [->| ->]; [done|].
    by rewrite components_app_sep, components_nil, app_nil_r. }
  assert (startswith h "/" = startswith p "/") as Hstart.
  { destruct Hq as [->| ->]; [|done]. unfold h. by rewrite startswith_sep_app. }
  apply str_eqb_false in Hh as Hhb. rewrite Hhb. simpl.
  destruct (all_sep h) eqn:Hall; simpl; [done|].
  assert (rstrip_sep h ≠ "") as Hr.
  { intros Hr%rstrip_sep_nil_iff. congruence. }
  by rewrite components_rstrip, startswith_rstrip.
Qed.
End joined_paths.

(** ** Directories created on the way to a file *)

Section directories.
Implicit Types (m : gmap (list string) node) (fs : filesystem).
Implicit Types (cur d t p : list string) (cs : list string) (n : node).

Lemma node_at_None m p : node_at m p = None → m !! p = None ∧ p ≠ [].
Proof. by destruct p. Qed.

Lemma node_at_lookup m p n : m !! p = Some n → p ≠ [] → node_at m p = Some n.
Proof. by destruct p. Qed.

Lemma step_plain cur c : c ≠ ".." → step cur c = (cur ++ [c])%list.
Proof. unfold step. intros Hc. by rewrite decide_False. Qed.

Lemma step_length cur c : (List.length (step cur c) ≤ S (List.length cur))%nat.
Proof.
  unfold step. case_decide.
  - induction cur as [|x [|y cur] IH]; simpl in *; lia.
  - rewrite length_app. simpl. lia.
Qed.

Lemma foldl_step_plain cur cs : ".." ∉ cs → foldl step cur cs = (cur ++ cs)%list.
Proof.
  revert cur. induction cs as [|c cs IH]; intros cur Hcs; simpl.
  - by rewrite app_nil_r.
  - apply not_elem_of_cons in Hcs as [Hc Hcs].
    rewrite step_plain by done. rewrite IH by done. by rewrite <-app_assoc.
Qed.

Lemma walk_snoc m cur cs c t :
  walk m cur (cs ++ [c]) = Ok t →
  walk m cur cs = Ok (foldl step cur cs) ∧
  node_at m (foldl step cur cs) = Some Dir ∧
  t = step (foldl step cur cs) c.
Proof.
  revert cur. induction cs as [|c' cs IH]; intros cur; simpl.
  - destruct (node_at m cur) as [[]|]; try done. by intros [= <-].
  - destruct (node_at m cur) as [[]|]; try done. apply IH.
Qed.

(** [os.makedirs] keeps what exists. *)
Lemma mkdir_p_mono m m' cur cs p n :
  mkdir_p m cur cs = Ok m' → m !! p = Some n → m' !! p = Some n.
Proof.
  revert m cur. induction cs as [|c cs IH]; intros m cur; simpl.
  - by intros [= <-].
  - destruct (node_at m cur) as [[]|]; try done.
    destruct (node_at m (step cur c)) as [[]|] eqn:Hnxt.
    + by destruct cs.
    + apply IH.
    + intros Hm Hp. apply (IH _ _ Hm).
      apply node_at_None in Hnxt as [Hnxt _].
      rewrite lookup_insert_ne; [done|]. intros <-. congruence.
Qed.

Lemma mkdir_p_dirs m m' cur cs p :
  mkdir_p m cur cs = Ok m' → node_at m p = Some Dir → node_at m' p = Some Dir.
Proof.
  intros Hm. destruct p as [|x p]; [done|]. simpl. by apply mkdir_p_mono with cur cs.
Qed.

(** [os.makedirs] creates nothing below the directory it is asked for. *)
Lemma mkdir_p_frame m m' cur cs p :
  mkdir_p m cur cs = Ok m' → List.length cur + List.length cs < List.length p →
  m' !! p = m !! p.
Proof.
  revert m cur. induction cs as [|c cs IH]; intros m cur; simpl.
  - by intros [= <-].
  - pose proof (step_length cur c) as Hlen.
    destruct (node_at m cur) as [[]|]; try done.
    destruct (node_at m (step cur c)) as [[]|] eqn:Hnxt.
    + by destruct cs.
    + intros Hm Hp. apply (IH _ _ Hm). lia.
    + intros Hm Hp. rewrite (IH _ _ Hm) by lia.
      rewrite lookup_insert_ne; [done|]. intros <-. lia.
Qed.

Lemma resolve_congr fs (path1 path2 : string) :
  path1 ≠ "" → path2 ≠ "" →
  components path1 = components path2 → startswith path1 "/" = startswith path2 "/" →
  resolve fs path1 = resolve fs path2 ∧
  stat fs path1 = stat fs path2 ∧
  os_path_exists fs path1 = os_path_exists fs path2 ∧
  os_makedirs fs path1 = os_makedirs fs path2.
Proof.
  intros H1%str_eqb_false H2%str_eqb_false Hc Hs.
  assert (resolve fs path1 = resolve fs path2) as Hr.
  { unfold resolve, start_dir. by rewrite H1, H2, Hc, Hs. }
  assert (stat fs path1 = stat fs path2) as Hst by (unfold stat; by rewrite Hr).
  repeat split; [done|done| |].
  - unfold os_path_exists. by rewrite Hst.
  - unfold os_makedirs, start_dir. by rewrite H1, H2, Hc, Hs.
Qed.

Lemma os_path_exists_nil fs : os_path_exists fs "" = false.
Proof. reflexivity. Qed.

Lemma os_makedirs_nil fs : os_makedirs fs "" = Raise FileNotFoundError.
Proof. reflexivity. Qed.
End directories.

(** ** What a local save leaves behind *)

Section local_saves.
Context {D : Type} `{BaseModel D} `{TextEncoding}.
Implicit Types (fs : filesystem) (d : D) (f : string).

(** The state in which the file is written: the directories on the way
    may have been created, everything else is as before. *)
Lemma local_save_prepare fs (path : string) :
  path ≠ "" →
  ∀ fs1,
    (if negb (os_path_exists fs path) then os_makedirs fs path else Ok fs) = Ok fs1 →
    cwd fs1 = cwd fs ∧
    (∀ q n, entries fs !! q = Some n → entries fs1 !! q = Some n) ∧
    (∀ q, node_at (entries fs) q = Some Dir → node_at (entries fs1) q = Some Dir) ∧
    (∀ q, List.length (start_dir fs path) + List.length (components path) < List.length q →
          entries fs1 !! q = entries fs !! q).
Proof.
  intros Hne%str_eqb_false fs1.
  destruct (os_path_exists fs path); simpl.
  - by intros [= <-].
  - unfold os_makedirs. rewrite Hne.
    destruct (mkdir_p (entries fs) (start_dir fs path) (components path))
      as [m1|] eqn:Hm1; [|done].
    simpl. intros [= <-]. simpl. repeat split.
    + intros q n. by apply mkdir_p_mono with (start_dir fs path) (components path).
    + intros q. by apply mkdir_p_dirs with (start_dir fs path) (components path).
    + intros q. by apply mkdir_p_frame.
Qed.

Lemma local_save_effect self fs fs' (p f : string) d :
  has_sep f = false → f ≠ "" → f ≠ "." → f ≠ ".." →
  LocalEvalSetStorageManager.save_eval_set self fs (join2 p f) d = Ok fs' →
  cwd fs' = cwd fs ∧
  resolve fs' p = Ok (abspath fs p) ∧
  node_at (entries fs') (abspath fs p) = Some Dir ∧
  is_Some (entries fs' !! (abspath fs p ++ [f])%list) ∧
  (∀ q, node_at (entries fs) q = Some Dir → node_at (entries fs') q = Some Dir) ∧
  (".." ∉ components p → ∀ x, x ≠ f →
     entries fs' !! (abspath fs p ++ [x])%list = entries fs !! (abspath fs p ++ [x])%list).
Proof.
  intros Hf Hne Hdot Hdots Hsave.
  rewrite local_save_eval_set_unfold in Hsave.
  destruct (String.eqb_spec p "") as [->|Hp].
  { by rewrite dirname_join2_nil, os_path_exists_nil, os_makedirs_nil in Hsave. }
  destruct (dirname_join2 p f Hf Hp) as (Hdn & Hdc & Hds).
  destruct (resolve_congr fs (dirname (join2 p f)) p Hdn Hp Hdc Hds)
    as (_ & _ & Hex & Hmk).
  rewrite Hex, Hmk in Hsave.
  destruct (if negb (os_path_exists fs p) then os_makedirs fs p else Ok fs)
    as [fs1|] eqn:Hfs1; [|done].
  destruct (local_save_prepare fs p Hp fs1 Hfs1) as (Hcwd & Hmono & Hdirs & Hframe).
  simpl in Hsave. unfold write_text in Hsave.
  apply write_bytes_inv in Hsave as (t & r & w & Hres & Ht & Hnd & _ & ->).
  assert (start_dir fs1 (join2 p f) = start_dir fs p) as Hstart.
  { unfold start_dir. by rewrite startswith_join2, Hcwd. }
  assert (start_dir fs1 p = start_dir fs p) as Hstart'.
  { unfold start_dir. by rewrite Hcwd. }
  unfold resolve in Hres.
  pose proof (join2_not_nil p f Hne Hf) as Hpath%str_eqb_false.
  rewrite Hpath, Hstart, components_join2 in Hres by done.
  apply walk_snoc in Hres as (Hwalk & Hloc & ->).
  fold (abspath fs p) in Hwalk, Hloc.
  rewrite step_plain in Hnd |- * by done.
  set (loc := abspath fs p) in *.
  assert (∀ q, node_at (entries fs1) q = Some Dir →
               node_at (<[(loc ++ [f])%list := File r w (locale_encode (model_dump_json d))]>
                          (entries fs1)) q = Some Dir) as Hins.
  { intros q. by apply node_at_insert_dirs. }
  assert (walk (<[(loc ++ [f])%list := File r w (locale_encode (model_dump_json d))]>
                  (entries fs1)) (start_dir fs p) (components p) = Ok loc) as Hwalk'.
  { by apply (walk_mono (entries fs1)). }
  repeat split.
  - done.
  - unfold resolve, start_dir. simpl entries. simpl cwd.
    apply str_eqb_false in Hp. rewrite Hp, Hcwd. exact Hwalk'.
  - by apply Hins.
  - simpl. by rewrite lookup_insert_eq.
  - intros q Hq. by apply Hins, Hdirs.
  - intros Hplain x Hx. simpl.
    rewrite lookup_insert_ne by (intros ?; simplify_list_eq).
    apply Hframe. unfold loc, abspath. rewrite foldl_step_plain by done.
    rewrite !length_app. simpl. lia.
Qed.
End local_saves.

(** ** Listings *)

Lemma listing_of_sorted ids : NoDup ids → listing_of ids (sorted ids).
Proof.
  intros Hnd. split; [apply sorted_Permutation|].
  split; [apply sorted_StronglySorted|by apply sorted_NoDup].
Qed.

(** A listing is determined by the set of ids, not by their order. *)
Lemma listing_of_unique ids1 ids2 l1 l2 :
  ids1 ≡ₚ ids2 → listing_of ids1 l1 → listing_of ids2 l2 → l1 = l2.
Proof.
  intros Hids (Hp1 & Hs1 & _) (Hp2 & Hs2 & _).
  apply (StronglySorted_unique String.le); [done|done|].
  by rewrite Hp1, Hp2.
Qed.

(** Names that are exactly the encoded ids decode to the ids. *)
Lemma sorted_decode (encode decode : string → string) (names ids : list string) :
  NoDup names → NoDup ids →
  (∀ name, name ∈ names ↔ name ∈ encode <$> ids) →
  (∀ id, id ∈ ids → decode (encode id) = id) →
  sorted (decode <$> names) = sorted ids.
Proof.
  intros Hnames Hids Hmem Hdec. apply sorted_order_independent.
  assert (names ≡ₚ encode <$> ids) as ->.
  { apply NoDup_Permutation; [done| |done].
    apply NoDup_fmap_2_strong; [|done].
    intros x y Hx Hy Heq. by rewrite <-(Hdec x), <-(Hdec y), Heq. }
  rewrite <-list_fmap_compose.
  assert (decode ∘ encode <$> ids = ids) as ->; [|done].
  rewrite <-(list_fmap_id ids) at 2. apply Forall_fmap_ext_1, Forall_forall.
  intros id Hid. by apply Hdec.
Qed.

Lemma file_name_plain (id ext : string) :
  has_sep id = false → has_sep ext = false → 2 < String.length ext →
  has_sep (id ++ ext) = false ∧ id ++ ext ≠ "" ∧ id ++ ext ≠ "." ∧ id ++ ext ≠ "..".
Proof.
  intros Hid Hext Hlen. split; [by rewrite has_sep_app, Hid, Hext|].
  repeat split; intros Heq; apply (f_equal String.length) in Heq;
    rewrite str_app_length in Heq; simpl in Heq; lia.
Qed.

(** ** Listing a local directory after saves *)

Section local_listings.
Context {D : Type} `{BaseModel D} `{TextEncoding}.
Implicit Types (fs : filesystem) (d : D) (docs : list (string * D)).

Lemma os_listdir_dir fs (p : string) loc :
  resolve fs p = Ok loc → node_at (entries fs) loc = Some Dir →
  os_listdir fs p = Ok (children (entries fs) loc) ∧ os_path_exists fs p = true.
Proof.
  intros Hres Hloc. unfold os_listdir, os_path_exists, stat.
  by rewrite Hres; simpl; rewrite Hloc.
Qed.

Lemma abspath_cwd fs fs' (p : string) : cwd fs' = cwd fs → abspath fs' p = abspath fs p.
Proof. intros Hcwd. unfold abspath, start_dir. by rewrite Hcwd. Qed.

Lemma resolve_mono fs fs' (p : string) loc :
  cwd fs' = cwd fs →
  (∀ q, node_at (entries fs) q = Some Dir → node_at (entries fs') q = Some Dir) →
  resolve fs p = Ok loc → resolve fs' p = Ok loc.
Proof.
  intros Hcwd Hdirs. unfold resolve, start_dir. rewrite Hcwd.
  destruct (String.eqb p ""); [done|]. by apply walk_mono.
Qed.

(** The entries of a directory that end with the extension, decoded. *)
Lemma elem_of_local_names (m : gmap (list string) node) loc ext name :
  name ∈ filter (λ file, endswith file ext) (children m loc) ↔
  endswith name ext = true ∧ is_Some (m !! (loc ++ [name])%list).
Proof. by rewrite list_elem_of_filter, Is_true_true, elem_of_children. Qed.

(** After one save the id is among the decoded entries. *)
Lemma local_listed_after_save self fs fs' (p id ext : string) d
    (decode : string → string) :
  has_sep id = false → has_sep ext = false → 2 < String.length ext →
  decode (id ++ ext) = id →
  LocalEvalSetStorageManager.save_eval_set self fs (join2 p (id ++ ext)) d = Ok fs' →
  ∃ files,
    os_listdir fs' p = Ok files ∧ os_path_exists fs' p = true ∧
    id ∈ sorted (decode <$> filter (λ file, endswith file ext) files).
Proof.
  intros Hid Hext Hlen Hdec Hsave.
  destruct (file_name_plain id ext Hid Hext Hlen) as (Hf & Hne & Hdot & Hdots).
  destruct (local_save_effect self fs fs' p (id ++ ext) d Hf Hne Hdot Hdots Hsave)
    as (_ & Hres & Hloc & Hfile & _).
  destruct (os_listdir_dir fs' p _ Hres Hloc) as [Hls Hex].
  eexists. split; [done|]. split; [done|].
  apply elem_of_sorted, list_elem_of_fmap. exists (id ++ ext). split; [done|].
  apply elem_of_local_names. split; [apply endswith_app|done].
Qed.

(** The effect of a sequence of saves on the directory of the files. *)
Lemma local_saves_effect self (p ext : string) docs fs fs' :
  has_sep ext = false → 2 < String.length ext →
  (∀ id, id ∈ docs.*1 → has_sep id = false) →
  ".." ∉ components p →
  save_each (LocalEvalSetStorageManager.save_eval_set self)
    (λ id, join2 p (id ++ ext)) fs docs = Ok fs' →
  cwd fs' = cwd fs ∧
  (∀ q, node_at (entries fs) q = Some Dir → node_at (entries fs') q = Some Dir) ∧
  (docs ≠ [] →
     resolve fs' p = Ok (abspath fs p) ∧
     node_at (entries fs') (abspath fs p) = Some Dir) ∧
  (∀ x, is_Some (entries fs' !! (abspath fs p ++ [x])%list) ↔
        is_Some (entries fs !! (abspath fs p ++ [x])%list) ∨
        x ∈ (λ id, id ++ ext) <$> docs.*1).
Proof.
  intros Hext Hlen Hids Hplain. revert fs.
  induction docs as [|[id d] docs IH]; intros fs; simpl.
  - intros [= <-]. split_and!; try done.
    intros x. split; [by left|]. by intros [?|?%elem_of_nil].
  - destruct (LocalEvalSetStorageManager.save_eval_set self fs (join2 p (id ++ ext)) d)
      as [fs1|] eqn:Hsave; [|done].
    simpl. intros Hrest.
    assert (has_sep id = false) as Hid by (apply Hids; simpl; left).
    destruct (file_name_plain id ext Hid Hext Hlen) as (Hf & Hne & Hdot & Hdots).
    destruct (local_save_effect self fs fs1 p (id ++ ext) d Hf Hne Hdot Hdots Hsave)
      as (Hcwd1 & Hres1 & Hloc1 & Hfile1 & Hdirs1 & Hframe1).
    destruct (IH (λ id' Hid', Hids id' (list_elem_of_further _ _ _ Hid')) fs1 Hrest)
      as (Hcwd & Hdirs & _ & Hmem).
    rewrite (abspath_cwd fs fs1 p Hcwd1) in Hmem.
    split_and!.
    + congruence.
    + intros q Hq. by apply Hdirs, Hdirs1.
    + intros _. split; [by apply (resolve_mono fs1)|by apply Hdirs].
    + intros x. split.
      * intros Hx. apply Hmem in Hx as [Hx|Hx].
        -- destruct (decide (x = id ++ ext)) as [->|Hne'].
           ++ right. left.
           ++ left. by rewrite <-Hframe1.
        -- right. by right.
      * intros [Hx|Hx]; apply Hmem.
        -- destruct (decide (x = id ++ ext)) as [->|Hne']; [by left|].
           left. by rewrite Hframe1.
        -- apply elem_of_cons in Hx as [->|Hx]; [by left|by right].
Qed.
End local_listings.

Section local_listings_of_saves.
Context {D : Type} `{BaseModel D} `{TextEncoding}.
Implicit Types (fs : filesystem) (docs : list (string * D)).

Lemma local_list_after_saves self (p ext : string) docs fs fs'
    (decode : string → string) :
  has_sep ext = false → 2 < String.length ext →
  NoDup docs.*1 → (∀ id, id ∈ docs.*1 → has_sep id = false) →
  ".." ∉ components p →
  (∀ id, has_sep id = false → decode (id ++ ext) = id) →
  (∀ x, endswith x ext = true → entries fs !! (abspath fs p ++ [x])%list = None) →
  docs ≠ [] →
  save_each (LocalEvalSetStorageManager.save_eval_set self)
    (λ id, join2 p (id ++ ext)) fs docs = Ok fs' →
  ∃ files,
    os_listdir fs' p = Ok files ∧ os_path_exists fs' p = true ∧
    sorted (decode <$> filter (λ file, endswith file ext) files) = sorted docs.*1.
Proof.
  intros Hext Hlen Hnd Hids Hplain Hdec Hclean Hne Hsaves.
  destruct (local_saves_effect self p ext docs fs fs' Hext Hlen Hids Hplain Hsaves)
    as (_ & _ & Hdir & Hmem).
  destruct (Hdir Hne) as [Hres Hloc].
  destruct (os_listdir_dir fs' p _ Hres Hloc) as [Hls Hex].
  eexists. split; [done|]. split; [done|].
  apply (sorted_decode (λ id, id ++ ext)).
  - apply NoDup_filter, children_NoDup.
  - done.
  - intros name. rewrite elem_of_local_names, Hmem. split.
    + intros [Hend [Hold|Hnew]]; [|done].
      rewrite (Hclean name Hend) in Hold. by destruct Hold.
    + intros Hname. split; [|by right].
      apply list_elem_of_fmap in Hname as (id & -> & _). apply endswith_app.
  - intros id Hid. by apply Hdec, Hids.
Qed.
End local_listings_of_saves.

(** ** Listing a bucket after saves *)

Section gcs_listings.
Context {D : Type} `{BaseModel D}.
Implicit Types (c : cloud) (b : gmap string blob) (docs : list (string * D)).

Lemma gcs_saves_effect self (key : string → string) docs c b :
  c !! GcsEvalSetStorageManager.bucket_name self = Some b →
  ∃ c' b',
    save_each (GcsEvalSetStorageManager.save_eval_set self) key c docs = Ok c' ∧
    c' !! GcsEvalSetStorageManager.bucket_name self = Some b' ∧
    ∀ name, is_Some (b' !! name) ↔ is_Some (b !! name) ∨ name ∈ key <$> docs.*1.
Proof.
  revert c b. induction docs as [|[id d] docs IH]; intros c b Hb.
  - exists c, b. split_and!; [done|done|].
    intros name. split; [by left|]. by intros [?|?%elem_of_nil].
  - set (c1 := <[GcsEvalSetStorageManager.bucket_name self :=
                   <[key id := {| content := model_dump_json d;
                                  readable_blob := true |}]> b]> c).
    assert (GcsEvalSetStorageManager.save_eval_set self c (key id) d = Ok c1) as Hup.
    { unfold GcsEvalSetStorageManager.save_eval_set, upload_from_string.
      by rewrite Hb. }
    destruct (IH c1 _ (lookup_insert_eq _ _ _)) as (c' & b' & Hsaves & Hb' & Hmem).
    exists c', b'. split_and!; [|done|].
    { change (save_each (GcsEvalSetStorageManager.save_eval_set self) key c
                ((id, d) :: docs))
        with (GcsEvalSetStorageManager.save_eval_set self c (key id) d ≫=
                λ s', save_each (GcsEvalSetStorageManager.save_eval_set self) key s' docs).
      by rewrite Hup. }
    intros name. rewrite Hmem, lookup_insert_is_Some. csimpl.
    rewrite elem_of_cons.
    destruct (decide (key id = name)) as [<-|Hne]; intuition (auto; congruence).
Qed.

Lemma gcs_list_after_saves self (dir ext : string) docs c b :
  has_sep ext = false →
  NoDup docs.*1 → (∀ id, id ∈ docs.*1 → has_sep id = false) →
  c !! GcsEvalSetStorageManager.bucket_name self = Some b →
  (∀ name, is_Some (b !! name) → startswith name dir = false) →
  ∃ c' names,
    save_each (GcsEvalSetStorageManager.save_eval_set self)
      (λ id, dir ++ "/" ++ id ++ ext) c docs = Ok c' ∧
    list_blobs c' (GcsEvalSetStorageManager.bucket_name self) dir = Ok names ∧
    sorted ((λ name, removesuffix (last_item (split_sep name)) ext) <$> names)
      = sorted docs.*1.
Proof.
  intros Hext Hnd Hids Hb Hclean.
  destruct (gcs_saves_effect self (λ id, dir ++ "/" ++ id ++ ext) docs c b Hb)
    as (c' & b' & Hsaves & Hb' & Hmem).
  exists c'. eexists. split; [done|]. unfold list_blobs. rewrite Hb'.
  split; [done|].
  apply (sorted_decode (λ id, dir ++ "/" ++ id ++ ext)).
  - apply blob_names_NoDup.
  - done.
  - intros name. rewrite elem_of_blob_names, Hmem. split.
    + intros [Hstart [Hold|Hnew]]; [|done].
      rewrite (Hclean name Hold) in Hstart. done.
    + intros Hname. split; [|by right].
      apply list_elem_of_fmap in Hname as (id & -> & _). apply startswith_app.
  - intros id Hid. apply id_of_saved_name; [by apply Hids|done].
Qed.

(** After one save the id is listed, whatever else the bucket holds. *)
Lemma gcs_listed_after_save self (dir id ext : string) (d : D) c :
  has_sep id = false → has_sep ext = false →
  bucket_exists c (GcsEvalSetStorageManager.bucket_name self) = true →
  ∃ c' names,
    GcsEvalSetStorageManager.save_eval_set self c (dir ++ "/" ++ id ++ ext) d = Ok c' ∧
    list_blobs c' (GcsEvalSetStorageManager.bucket_name self) dir = Ok names ∧
    id ∈ sorted ((λ name, removesuffix (last_item (split_sep name)) ext) <$> names).
Proof.
  intros Hid Hext [b Hb]%bucket_exists_true.
  unfold GcsEvalSetStorageManager.save_eval_set, upload_from_string, list_blobs.
  rewrite Hb. eexists. eexists. split; [done|].
  rewrite lookup_insert_eq. split; [done|].
  apply elem_of_sorted, list_elem_of_fmap. exists (dir ++ "/" ++ id ++ ext).
  split; [by rewrite id_of_saved_name|].
  apply elem_of_blob_names. split; [apply startswith_app|].
  by rewrite lookup_insert_eq.
Qed.
End gcs_listings.

(** ** Claims on listings *)

Lemma basename_file_name (id ext : string) :
  has_sep id = false → has_sep ext = false →
  removesuffix (basename (id ++ ext)) ext = id.
Proof.
  intros Hid Hext. unfold basename.
  rewrite tail_of_plain by (by rewrite has_sep_app, Hid, Hext).
  apply removesuffix_app.
Qed.

Section claims_on_listings.
Context {EvalSet EvalSetResult : Type}.
Context `{BaseModel EvalSet} `{BaseModel EvalSetResult} `{TextEncoding}.

(** C6 (amended).  Save documents under distinct ids without a slash, in
    any order, each at its resolved path.  On the object store, if the
    bucket held no object under the prefix of the namespace, the saves
    succeed and the listing is exactly these ids, each once, in ascending
    order.  Locally the same holds when at least one document is saved,
    every save returned, the path of the directory has no [..] component
    and the directory held no entry with the extension. *)
Theorem list_after_saves_sorted (root bucket_name ns : string) :
  (∀ (c : cloud) (b : gmap string blob) (docs : list (string * EvalSet)),
     let self := {| GcsEvalSetStorageManager.bucket_name := bucket_name |} in
     NoDup docs.*1 → (∀ id, id ∈ docs.*1 → has_sep id = false) →
     c !! bucket_name = Some b →
     (∀ name, is_Some (b !! name) →
        startswith name (GcsEvalSetStorageManager._get_eval_sets_dir self ns) = false) →
     ∃ c' l,
       save_each (GcsEvalSetStorageManager.save_eval_set self)
         (GcsEvalSetStorageManager.get_eval_set_path self ns) c docs = Ok c' ∧
       GcsEvalSetStorageManager.list_eval_sets self c' ns = Ok l ∧
       listing_of docs.*1 l) ∧
  (∀ (c : cloud) (b : gmap string blob) (docs : list (string * EvalSetResult)),
     let self := {| GcsEvalSetResultsStorageManager.bucket_name := bucket_name |} in
     NoDup docs.*1 → (∀ id, id ∈ docs.*1 → has_sep id = false) →
     c !! bucket_name = Some b →
     (∀ name, is_Some (b !! name) →
        startswith name
          (GcsEvalSetResultsStorageManager._get_eval_history_dir self ns) = false) →
     ∃ c' l,
       save_each (GcsEvalSetResultsStorageManager.save_eval_set_result self)
         (GcsEvalSetResultsStorageManager.get_eval_set_result_path self ns) c docs
         = Ok c' ∧
       GcsEvalSetResultsStorageManager.list_eval_set_results self c' ns = Ok l ∧
       listing_of docs.*1 l) ∧
  (∀ (fs fs' : filesystem) (docs : list (string * EvalSet)),
     let self := LocalEvalSetStorageManager.__init__ root in
     let dir := os_path_join root [ns] in
     NoDup docs.*1 → (∀ id, id ∈ docs.*1 → has_sep id = false) → docs ≠ [] →
     ".." ∉ components dir →
     (∀ x, endswith x ".evalset.json" = true →
           entries fs !! (abspath fs dir ++ [x])%list = None) →
     save_each (LocalEvalSetStorageManager.save_eval_set self)
       (LocalEvalSetStorageManager.get_eval_set_path self ns) fs docs = Ok fs' →
     ∃ l, LocalEvalSetStorageManager.list_eval_sets self fs' ns = Ok l ∧
          listing_of docs.*1 l) ∧
  (∀ (fs fs' : filesystem) (docs : list (string * EvalSetResult)),
     let self := LocalEvalSetResultsStorageManager.__init__ root in
     let dir := LocalEvalSetResultsStorageManager._get_eval_history_dir self ns in
     NoDup docs.*1 → (∀ id, id ∈ docs.*1 → has_sep id = false) → docs ≠ [] →
     ".." ∉ components dir →
     (∀ x, endswith x ".evalset_result.json" = true →
           entries fs !! (abspath fs dir ++ [x])%list = None) →
     save_each (LocalEvalSetResultsStorageManager.save_eval_set_result self)
       (LocalEvalSetResultsStorageManager.get_eval_set_result_path self ns) fs docs
       = Ok fs' →
     ∃ l, LocalEvalSetResultsStorageManager.list_eval_set_results self fs' ns = Ok l ∧
          listing_of docs.*1 l).
Proof.
  split_and!.
  - intros c b docs self Hnd Hids Hb Hclean.
    destruct (gcs_list_after_saves self _ ".evalset.json" docs c b eq_refl
                Hnd Hids Hb Hclean) as (c' & names & Hsaves & Hls & Hsorted).
    exists c', (sorted docs.*1). split; [exact Hsaves|].
    split; [|by apply listing_of_sorted].
    unfold GcsEvalSetStorageManager.list_eval_sets. simpl. simpl in Hls.
    rewrite Hls. f_equal. exact Hsorted.
  - intros c b docs self Hnd Hids Hb Hclean.
    destruct (gcs_list_after_saves
                {| GcsEvalSetStorageManager.bucket_name := bucket_name |}
                _ ".evalset_result.json" docs c b eq_refl
                Hnd Hids Hb Hclean) as (c' & names & Hsaves & Hls & Hsorted).
    exists c', (sorted docs.*1). split; [exact Hsaves|].
    split; [|by apply listing_of_sorted].
    unfold GcsEvalSetResultsStorageManager.list_eval_set_results. simpl. simpl in Hls.
    rewrite Hls. f_equal. exact Hsorted.
  - intros fs fs' docs self dir Hnd Hids Hne Hplain Hclean Hsaves.
    destruct (local_list_after_saves self dir ".evalset.json" docs fs fs'
                (λ file, removesuffix (basename file) ".evalset.json")
                eq_refl ltac:(simpl; lia) Hnd Hids Hplain
                (λ id Hid, basename_file_name id ".evalset.json" Hid eq_refl)
                Hclean Hne Hsaves)
      as (files & Hls & _ & Hsorted).
    exists (sorted docs.*1). split; [|by apply listing_of_sorted].
    unfold LocalEvalSetStorageManager.list_eval_sets.
    change (os_path_join _ [ns]) with dir.
    rewrite Hls. simpl. f_equal. exact Hsorted.
  - intros fs fs' docs self dir Hnd Hids Hne Hplain Hclean Hsaves.
    destruct (local_list_after_saves (LocalEvalSetStorageManager.__init__ root)
                dir ".evalset_result.json" docs fs fs'
                (λ file, removesuffix file ".evalset_result.json")
                eq_refl ltac:(simpl; lia) Hnd Hids Hplain
                (λ id _, removesuffix_app id ".evalset_result.json")
                Hclean Hne Hsaves)
      as (files & Hls & Hex & Hsorted).
    exists (sorted docs.*1). split; [|by apply listing_of_sorted].
    unfold LocalEvalSetResultsStorageManager.list_eval_set_results.
    change (LocalEvalSetResultsStorageManager._get_eval_history_dir self ns) with dir.
    rewrite Hex, Hls. simpl. f_equal. exact Hsorted.
Qed.

(** C9 (amended).  After a document is saved under an id without a slash,
    whether or not the id contains the extension in its interior, the
    listing of the namespace contains the id unchanged, on the four
    managers. *)
Theorem list_keeps_saved_id (root bucket_name ns id : string) :
  has_sep id = false →
  (∀ (c : cloud) (d : EvalSet),
     let self := {| GcsEvalSetStorageManager.bucket_name := bucket_name |} in
     bucket_exists c bucket_name = true →
     ∃ c' l,
       GcsEvalSetStorageManager.save_eval_set self c
         (GcsEvalSetStorageManager.get_eval_set_path self ns id) d = Ok c' ∧
       GcsEvalSetStorageManager.list_eval_sets self c' ns = Ok l ∧ id ∈ l) ∧
  (∀ (c : cloud) (d : EvalSetResult),
     let self := {| GcsEvalSetResultsStorageManager.bucket_name := bucket_name |} in
     bucket_exists c bucket_name = true →
     ∃ c' l,
       GcsEvalSetResultsStorageManager.save_eval_set_result self c
         (GcsEvalSetResultsStorageManager.get_eval_set_result_path self ns id) d
         = Ok c' ∧
       GcsEvalSetResultsStorageManager.list_eval_set_results self c' ns = Ok l ∧
       id ∈ l) ∧
  (∀ (fs fs' : filesystem) (d : EvalSet),
     let self := LocalEvalSetStorageManager.__init__ root in
     LocalEvalSetStorageManager.save_eval_set self fs
       (LocalEvalSetStorageManager.get_eval_set_path self ns id) d = Ok fs' →
     ∃ l, LocalEvalSetStorageManager.list_eval_sets self fs' ns = Ok l ∧ id ∈ l) ∧
  (∀ (fs fs' : filesystem) (d : EvalSetResult),
     let self := LocalEvalSetResultsStorageManager.__init__ root in
     LocalEvalSetResultsStorageManager.save_eval_set_result self fs
       (LocalEvalSetResultsStorageManager.get_eval_set_result_path self ns id) d
       = Ok fs' →
     ∃ l, LocalEvalSetResultsStorageManager.list_eval_set_results self fs' ns = Ok l ∧
          id ∈ l).
Proof.
  intros Hid. split_and!.
  - intros c d self Hb.
    destruct (gcs_listed_after_save self
                (GcsEvalSetStorageManager._get_eval_sets_dir self ns) id
                ".evalset.json" d c Hid eq_refl Hb)
      as (c' & names & Hsave & Hls & Hin).
    exists c'. eexists. split; [exact Hsave|].
    unfold GcsEvalSetStorageManager.list_eval_sets. simpl. simpl in Hls.
    rewrite Hls. split; [done|exact Hin].
  - intros c d self Hb.
    destruct (gcs_listed_after_save
                {| GcsEvalSetStorageManager.bucket_name := bucket_name |}
                (GcsEvalSetResultsStorageManager._get_eval_history_dir self ns) id
                ".evalset_result.json" d c Hid eq_refl Hb)
      as (c' & names & Hsave & Hls & Hin).
    exists c'. eexists. split; [exact Hsave|].
    unfold GcsEvalSetResultsStorageManager.list_eval_set_results. simpl. simpl in Hls.
    rewrite Hls. split; [done|exact Hin].
  - intros fs fs' d self Hsave.
    destruct (local_listed_after_save self fs fs' (os_path_join root [ns]) id
                ".evalset.json" d
                (λ file, removesuffix (basename file) ".evalset.json")
                Hid eq_refl ltac:(simpl; lia)
                (basename_file_name id ".evalset.json" Hid eq_refl) Hsave)
      as (files & Hls & _ & Hin).
    eexists. unfold LocalEvalSetStorageManager.list_eval_sets. simpl.
    simpl in Hls. rewrite Hls. split; [done|exact Hin].
  - intros fs fs' d self Hsave.
    destruct (local_listed_after_save (LocalEvalSetStorageManager.__init__ root)
                fs fs' (LocalEvalSetResultsStorageManager._get_eval_history_dir self ns)
                id ".evalset_result.json" d
                (λ file, removesuffix file ".evalset_result.json")
                Hid eq_refl ltac:(simpl; lia)
                (removesuffix_app id ".evalset_result.json") Hsave)
      as (files & Hls & Hex & Hin).
    eexists. unfold LocalEvalSetResultsStorageManager.list_eval_set_results.
    rewrite Hex, Hls. split; [done|exact Hin].
Qed.
End claims_on_listings.

(** C6, as stated, fails for an id with a slash: after the id [sub/x] is
    saved in an empty bucket, the listing is [x], which does not list the
    saved id. *)
Lemma gcs_list_loses_directory_part_of_id :
  let self := {| GcsEvalSetStorageManager.bucket_name := "test_bucket" |} in
  (save_each (@GcsEvalSetStorageManager.save_eval_set string Sample.note_model self)
     (GcsEvalSetStorageManager.get_eval_set_path self "test_app")
     Sample.provider [("sub/x", "one")] ≫=
   λ c', GcsEvalSetStorageManager.list_eval_sets self c' "test_app") = Ok ["x"] ∧
  ¬ listing_of ["sub/x"] ["x"].
Proof.
  intros self. split; [vm_compute; reflexivity|].
  intros [Hperm _]. by apply Permutation_singleton_inj in Hperm.
Qed.

(** C9, as stated, fails for an id with a slash: the id
    [a.evalset.json/b] contains the extension in its interior and does
    not end with it; after it is saved, the object store lists [b] and
    the local manager lists [a]. *)
Lemma list_misreads_id_with_slash :
  let id := "a.evalset.json/b" in
  let gcs := {| GcsEvalSetStorageManager.bucket_name := "test_bucket" |} in
  let local := LocalEvalSetStorageManager.__init__ "agents" in
  id = "a" ++ ".evalset.json" ++ "/b" ∧
  endswith id ".evalset.json" = false ∧
  (@GcsEvalSetStorageManager.save_eval_set string Sample.note_model gcs
     Sample.provider
     (GcsEvalSetStorageManager.get_eval_set_path gcs "test_app" id) "one" ≫=
   λ c', GcsEvalSetStorageManager.list_eval_sets gcs c' "test_app") = Ok ["b"] ∧
  (@LocalEvalSetStorageManager.save_eval_set string Sample.note_model
     Sample.ascii_locale local Sample.home
     (LocalEvalSetStorageManager.get_eval_set_path local "test_app" id) "one" ≫=
   λ fs', LocalEvalSetStorageManager.list_eval_sets local fs' "test_app") = Ok ["a"].
Proof.
  intros id gcs local. split; [reflexivity|]. split; [reflexivity|].
  split; vm_compute; reflexivity.
Qed.

Lemma two_ids_plain (id : string) :
  id ∈ ["r1"; "r0"] → has_sep id = false.
Proof.
  intros Hid. apply elem_of_cons in Hid as [->|Hid]; [reflexivity|].
  apply elem_of_cons in Hid as [->|Hid]; [reflexivity|].
  by apply elem_of_nil in Hid.
Qed.

Lemma two_ids_NoDup : NoDup ["r1"; "r0"].
Proof.
  apply NoDup_cons. split; [|apply NoDup_singleton].
  intros Hin. apply list_elem_of_singleton in Hin. discriminate.
Qed.

Lemma list_after_saves_sorted_witness :
  let docs := [("r1", "one"); ("r0", "zero")] in
  let gcs_sets := {| GcsEvalSetStorageManager.bucket_name := "test_bucket" |} in
  let gcs_results := {| GcsEvalSetResultsStorageManager.bucket_name := "test_bucket" |} in
  let sets := LocalEvalSetStorageManager.__init__ "agents" in
  let results := LocalEvalSetResultsStorageManager.__init__ "agents" in
  (∃ c' l,
     save_each (@GcsEvalSetStorageManager.save_eval_set string Sample.note_model gcs_sets)
       (GcsEvalSetStorageManager.get_eval_set_path gcs_sets "test_app")
       Sample.provider docs = Ok c' ∧
     GcsEvalSetStorageManager.list_eval_sets gcs_sets c' "test_app" = Ok l ∧
     listing_of ["r1"; "r0"] l) ∧
  (∃ c' l,
     save_each (@GcsEvalSetResultsStorageManager.save_eval_set_result string
                  Sample.note_model gcs_results)
       (GcsEvalSetResultsStorageManager.get_eval_set_result_path gcs_results "test_app")
       Sample.provider docs = Ok c' ∧
     GcsEvalSetResultsStorageManager.list_eval_set_results gcs_results c' "test_app"
       = Ok l ∧
     listing_of ["r1"; "r0"] l) ∧
  (∃ fs' l,
     save_each (@LocalEvalSetStorageManager.save_eval_set string Sample.note_model
                  Sample.ascii_locale sets)
       (LocalEvalSetStorageManager.get_eval_set_path sets "test_app")
       Sample.home docs = Ok fs' ∧
     LocalEvalSetStorageManager.list_eval_sets sets fs' "test_app" = Ok l ∧
     listing_of ["r1"; "r0"] l) ∧
  (∃ fs' l,
     save_each (@LocalEvalSetResultsStorageManager.save_eval_set_result string
                  Sample.note_model Sample.ascii_locale results)
       (LocalEvalSetResultsStorageManager.get_eval_set_result_path results "test_app")
       Sample.home docs = Ok fs' ∧
     LocalEvalSetResultsStorageManager.list_eval_set_results results fs' "test_app"
       = Ok l ∧
     listing_of ["r1"; "r0"] l).
Proof.
  intros docs gcs_sets gcs_results sets results.
  pose proof (@list_after_saves_sorted string string Sample.note_model Sample.note_model
                Sample.ascii_locale "agents" "test_bucket" "test_app")
    as (Hgcs_sets & Hgcs_results & Hsets & Hresults).
  split_and!.
  - apply (Hgcs_sets Sample.provider ∅ docs);
      [exact two_ids_NoDup | exact two_ids_plain | reflexivity |].
    intros name [o Ho]. by rewrite lookup_empty in Ho.
  - apply (Hgcs_results Sample.provider ∅ docs);
      [exact two_ids_NoDup | exact two_ids_plain | reflexivity |].
    intros name [o Ho]. by rewrite lookup_empty in Ho.
  - assert ((save_each
               (@LocalEvalSetStorageManager.save_eval_set string Sample.note_model
                  Sample.ascii_locale sets)
               (LocalEvalSetStorageManager.get_eval_set_path sets "test_app")
               Sample.home docs ≫= λ _, Ok tt) = Ok tt) as Hrun.
    { vm_compute. reflexivity. }
    apply bind_Ok_inv in Hrun as (fs' & Hsaves & _).
    assert (".." ∉ components (os_path_join "agents" ["test_app"])) as Hplain.
    { vm_compute. intros Hin.
      apply elem_of_cons in Hin as [Hin|Hin]; [discriminate|].
      apply elem_of_cons in Hin as [Hin|Hin]; [discriminate|].
      by apply elem_of_nil in Hin. }
    assert (∀ x, endswith x ".evalset.json" = true →
              entries Sample.home
                !! (abspath Sample.home (os_path_join "agents" ["test_app"]) ++ [x])%list
              = None) as Hclean.
    { intros x _. apply lookup_singleton_ne. intros Heq. vm_compute in Heq.
      discriminate. }
    assert (docs ≠ []) as Hne by discriminate.
    destruct (Hsets Sample.home fs' docs two_ids_NoDup two_ids_plain Hne Hplain
                Hclean Hsaves) as (l & Hl & Hlist).
    exists fs', l. split; [exact Hsaves|]. by split.
  - assert ((save_each
               (@LocalEvalSetResultsStorageManager.save_eval_set_result string
                  Sample.note_model Sample.ascii_locale results)
               (LocalEvalSetResultsStorageManager.get_eval_set_result_path results
                  "test_app")
               Sample.home docs ≫= λ _, Ok tt) = Ok tt) as Hrun.
    { vm_compute. reflexivity. }
    apply bind_Ok_inv in Hrun as (fs' & Hsaves & _).
    assert (".." ∉ components
              (LocalEvalSetResultsStorageManager._get_eval_history_dir results
                 "test_app")) as Hplain.
    { vm_compute. intros Hin.
      apply elem_of_cons in Hin as [Hin|Hin]; [discriminate|].
      apply elem_of_cons in Hin as [Hin|Hin]; [discriminate|].
      apply elem_of_cons in Hin as [Hin|Hin]; [discriminate|].
      apply elem_of_cons in Hin as [Hin|Hin]; [discriminate|].
      by apply elem_of_nil in Hin. }
    assert (∀ x, endswith x ".evalset_result.json" = true →
              entries Sample.home
                !! (abspath Sample.home
                      (LocalEvalSetResultsStorageManager._get_eval_history_dir results
                         "test_app") ++ [x])%list
              = None) as Hclean.
    { intros x _. apply lookup_singleton_ne. intros Heq. vm_compute in Heq.
      discriminate. }
    assert (docs ≠ []) as Hne by discriminate.
    destruct (Hresults Sample.home fs' docs two_ids_NoDup two_ids_plain Hne Hplain
                Hclean Hsaves) as (l & Hl & Hlist).
    exists fs', l. split; [exact Hsaves|]. by split.
Defined.

Lemma list_keeps_saved_id_witness :
  let gcs_sets := {| GcsEvalSetStorageManager.bucket_name := "test_bucket" |} in
  let gcs_results := {| GcsEvalSetResultsStorageManager.bucket_name := "test_bucket" |} in
  let sets := LocalEvalSetStorageManager.__init__ "agents" in
  let results := LocalEvalSetResultsStorageManager.__init__ "agents" in
  (∃ c' l,
     @GcsEvalSetStorageManager.save_eval_set string Sample.note_model gcs_sets
       Sample.stocked_provider
       (GcsEvalSetStorageManager.get_eval_set_path gcs_sets "test_app" "a.evalset.jsonb")
       "one" = Ok c' ∧
     GcsEvalSetStorageManager.list_eval_sets gcs_sets c' "test_app" = Ok l ∧
     "a.evalset.jsonb" ∈ l) ∧
  (∃ c' l,
     @GcsEvalSetResultsStorageManager.save_eval_set_result string Sample.note_model
       gcs_results Sample.stocked_provider
       (GcsEvalSetResultsStorageManager.get_eval_set_result_path gcs_results "test_app"
          "a.evalset_result.jsonb")
       "one" = Ok c' ∧
     GcsEvalSetResultsStorageManager.list_eval_set_results gcs_results c' "test_app"
       = Ok l ∧
     "a.evalset_result.jsonb" ∈ l) ∧
  (∃ fs' l,
     @LocalEvalSetStorageManager.save_eval_set string Sample.note_model
       Sample.ascii_locale sets Sample.library
       (LocalEvalSetStorageManager.get_eval_set_path sets "test_app" "a.evalset.jsonb")
       "one" = Ok fs' ∧
     LocalEvalSetStorageManager.list_eval_sets sets fs' "test_app" = Ok l ∧
     "a.evalset.jsonb" ∈ l) ∧
  (∃ fs' l,
     @LocalEvalSetResultsStorageManager.save_eval_set_result string Sample.note_model
       Sample.ascii_locale results Sample.library
       (LocalEvalSetResultsStorageManager.get_eval_set_result_path results "test_app"
          "a.evalset_result.jsonb")
       "one" = Ok fs' ∧
     LocalEvalSetResultsStorageManager.list_eval_set_results results fs' "test_app"
       = Ok l ∧
     "a.evalset_result.jsonb" ∈ l).
Proof.
  intros gcs_sets gcs_results sets results.
  pose proof (@list_keeps_saved_id string string Sample.note_model Sample.note_model
                Sample.ascii_locale "agents" "test_bucket" "test_app" "a.evalset.jsonb"
                eq_refl) as (Hgcs_sets & _ & Hsets & _).
  pose proof (@list_keeps_saved_id string string Sample.note_model Sample.note_model
                Sample.ascii_locale "agents" "test_bucket" "test_app"
                "a.evalset_result.jsonb" eq_refl) as (_ & Hgcs_results & _ & Hresults).
  split_and!.
  - apply (Hgcs_sets Sample.stocked_provider "one"). reflexivity.
  - apply (Hgcs_results Sample.stocked_provider "one"). reflexivity.
  - assert ((@LocalEvalSetStorageManager.save_eval_set string Sample.note_model
               Sample.ascii_locale sets Sample.library
               (LocalEvalSetStorageManager.get_eval_set_path sets "test_app"
                  "a.evalset.jsonb") "one" ≫= λ _, Ok tt) = Ok tt) as Hrun.
    { vm_compute. reflexivity. }
    apply bind_Ok_inv in Hrun as (fs' & Hsave & _).
    destruct (Hsets Sample.library fs' "one" Hsave) as (l & Hl & Hin).
    exists fs', l. split; [exact Hsave|]. split; [exact Hl|exact Hin].
  - assert ((@LocalEvalSetResultsStorageManager.save_eval_set_result string
               Sample.note_model Sample.ascii_locale results Sample.library
               (LocalEvalSetResultsStorageManager.get_eval_set_result_path results
                  "test_app" "a.evalset_result.jsonb") "one" ≫= λ _, Ok tt) = Ok tt)
      as Hrun.
    { vm_compute. reflexivity. }
    apply bind_Ok_inv in Hrun as (fs' & Hsave & _).
    destruct (Hresults Sample.library fs' "one" Hsave) as (l & Hl & Hin).
    exists fs', l. split; [exact Hsave|]. split; [exact Hl|exact Hin].
Defined.

(** * Further properties of the managers *)

(** ** Keys of the object store *)

Lemma in_class_not_sep (c : ascii) :
  GcsEvalSetStorageManager.in_class c = true → is_sep c = false.
Proof.
  intros Hc. destruct (is_sep c) eqn:Hs; [|done].
  apply Ascii.eqb_eq in Hs as ->. by vm_compute in Hc.
Qed.

Lemma fullmatch_plain (s : string) :
  GcsEvalSetStorageManager.fullmatch s = true → s ≠ "" ∧ has_sep s = false.
Proof.
  intros [Hne Hall]%fullmatch_spec. split; [done|].
  unfold has_sep. induction Hall as [|c l Hc _ IH]; [done|].
  simpl. by rewrite in_class_not_sep, IH.
Qed.

Lemma str_app_inj_r (a b suf : string) : a ++ suf = b ++ suf → a = b.
Proof. intros Heq. by rewrite <-(removesuffix_app a suf), Heq, removesuffix_app. Qed.

Lemma endswith_app_long (a b suf : string) :
  (String.length suf ≤ String.length b)%nat → endswith (a ++ b) suf = endswith b suf.
Proof.
  intros Hlen. induction a as [|c a IH]; [done|].
  rewrite str_app_cons.
  change (String.eqb (String c (a ++ b)) suf || endswith (a ++ b) suf = endswith b suf).
  rewrite IH. replace (String.eqb (String c (a ++ b)) suf) with false; [done|].
  symmetry. apply str_eqb_false. intros Heq.
  apply (f_equal String.length) in Heq. simpl in Heq.
  rewrite str_app_length in Heq. lia.
Qed.

(** X1.  An id that [_validate_id] accepts is not empty and has no slash,
    and the key built from it, for any namespace, decodes back to the id
    by the rule of [list_eval_sets]. *)
Theorem validated_id_survives_key (self : GcsEvalSetStorageManager.t)
    (id_name ns id : string) :
  GcsEvalSetStorageManager._validate_id self id_name id = Ok tt →
  id ≠ "" ∧ has_sep id = false ∧
  removesuffix
    (last_item (split_sep (GcsEvalSetStorageManager.get_eval_set_path self ns id)))
    GcsEvalSetStorageManager._EVAL_SET_FILE_EXTENSION = id.
Proof.
  unfold GcsEvalSetStorageManager._validate_id.
  destruct (GcsEvalSetStorageManager.fullmatch id) eqn:Hm; [|done]. intros _.
  destruct (fullmatch_plain id Hm) as [Hne Hplain].
  split; [done|]. split; [done|].
  by apply id_of_saved_name.
Qed.

Lemma validated_id_survives_key_witness :
  "valid_id123" ≠ "" ∧ has_sep "valid_id123" = false ∧
  removesuffix
    (last_item (split_sep
       (GcsEvalSetStorageManager.get_eval_set_path
          {| GcsEvalSetStorageManager.bucket_name := "test_bucket" |}
          "test_app" "valid_id123")))
    GcsEvalSetStorageManager._EVAL_SET_FILE_EXTENSION = "valid_id123".
Proof.
  apply (validated_id_survives_key
           {| GcsEvalSetStorageManager.bucket_name := "test_bucket" |}
           "eval_set_id" "test_app" "valid_id123").
  reflexivity.
Defined.

(** X2.  Within a namespace distinct ids have distinct keys on the object
    store, for both kinds: a save under one id never overwrites the
    document of another id. *)
Theorem gcs_keys_injective_in_id (bucket_name ns id1 id2 : string) :
  id1 ≠ id2 →
  GcsEvalSetStorageManager.get_eval_set_path
    {| GcsEvalSetStorageManager.bucket_name := bucket_name |} ns id1 ≠
  GcsEvalSetStorageManager.get_eval_set_path
    {| GcsEvalSetStorageManager.bucket_name := bucket_name |} ns id2 ∧
  GcsEvalSetResultsStorageManager.get_eval_set_result_path
    {| GcsEvalSetResultsStorageManager.bucket_name := bucket_name |} ns id1 ≠
  GcsEvalSetResultsStorageManager.get_eval_set_result_path
    {| GcsEvalSetResultsStorageManager.bucket_name := bucket_name |} ns id2.
Proof.
  intros Hne. split.
  - unfold GcsEvalSetStorageManager.get_eval_set_path. simpl. intros Heq.
    apply (inj (String.app _)) in Heq. apply (inj (String.app _)) in Heq.
    by apply str_app_inj_r in Heq.
  - unfold GcsEvalSetResultsStorageManager.get_eval_set_result_path. simpl.
    intros Heq.
    apply (inj (String.app _)) in Heq. apply (inj (String.app _)) in Heq.
    by apply str_app_inj_r in Heq.
Qed.

Lemma gcs_keys_injective_in_id_witness :
  GcsEvalSetStorageManager.get_eval_set_path
    {| GcsEvalSetStorageManager.bucket_name := "test_bucket" |} "test_app" "r0" ≠
  GcsEvalSetStorageManager.get_eval_set_path
    {| GcsEvalSetStorageManager.bucket_name := "test_bucket" |} "test_app" "r1" ∧
  GcsEvalSetResultsStorageManager.get_eval_set_result_path
    {| GcsEvalSetResultsStorageManager.bucket_name := "test_bucket" |} "test_app" "r0" ≠
  GcsEvalSetResultsStorageManager.get_eval_set_result_path
    {| GcsEvalSetResultsStorageManager.bucket_name := "test_bucket" |} "test_app" "r1".
Proof.
  apply (gcs_keys_injective_in_id "test_bucket" "test_app" "r0" "r1"). discriminate.
Defined.

(** X3.  The two kinds never meet: the name of an eval set result never
    ends with the extension of eval sets, nor the other way round, so each
    local listing skips the files of the other kind, and a key of one kind
    on the object store is never a key of the other. *)
Theorem kinds_are_disjoint (b1 b2 ns1 ns2 id1 id2 : string) :
  endswith (id1 ++ ".evalset_result.json") ".evalset.json" = false ∧
  endswith (id1 ++ ".evalset.json") ".evalset_result.json" = false ∧
  GcsEvalSetStorageManager.get_eval_set_path
    {| GcsEvalSetStorageManager.bucket_name := b1 |} ns1 id1 ≠
  GcsEvalSetResultsStorageManager.get_eval_set_result_path
    {| GcsEvalSetResultsStorageManager.bucket_name := b2 |} ns2 id2.
Proof.
  split; [by rewrite endswith_app_long by (simpl; lia)|].
  split; [|].
  - destruct (endswith (id1 ++ ".evalset.json") ".evalset_result.json") eqn:He; [|done].
    apply endswith_inv in He as [a Ha].
    assert (endswith (a ++ ".evalset_result.json") ".evalset.json" = true) as Hbad.
    { rewrite <-Ha. apply endswith_app. }
    by rewrite endswith_app_long in Hbad by (simpl; lia).
  - unfold GcsEvalSetStorageManager.get_eval_set_path,
      GcsEvalSetResultsStorageManager.get_eval_set_result_path. simpl. intros Heq.
    assert (endswith
              (GcsEvalSetResultsStorageManager._get_eval_history_dir
                 {| GcsEvalSetResultsStorageManager.bucket_name := b2 |} ns2 ++
               "/" ++ id2 ++ ".evalset_result.json") ".evalset.json" = true) as Hbad.
    { change GcsEvalSetResultsStorageManager._EVAL_SET_RESULT_FILE_EXTENSION
        with ".evalset_result.json" in Heq.
      rewrite <-Heq. apply endswith_app_l, endswith_app_l, endswith_app. }
    rewrite <-!str_app_assoc in Hbad.
    by rewrite endswith_app_long in Hbad by (simpl; lia).
Qed.

(** ** Saving to and loading from the object store *)

Section gcs_extras.
Context {EvalSet EvalSetResult : Type}.
Context `{BaseModel EvalSet} `{BaseModel EvalSetResult}.

(** X4.  A save replaces the whole object: after two saves at one key the
    bucket is as if only the second had been made, and a load returns the
    second document. *)
Theorem gcs_last_save_wins (bucket_name path : string) (c : cloud)
    (d1 d2 : EvalSet) (r1 r2 : EvalSetResult) :
  bucket_exists c bucket_name = true →
  valid_document d2 → valid_document r2 →
  let sets := {| GcsEvalSetStorageManager.bucket_name := bucket_name |} in
  let results := {| GcsEvalSetResultsStorageManager.bucket_name := bucket_name |} in
  (∃ c1 c2 (d' : EvalSet),
     GcsEvalSetStorageManager.save_eval_set sets c path d1 = Ok c1 ∧
     GcsEvalSetStorageManager.save_eval_set sets c1 path d2 = Ok c2 ∧
     GcsEvalSetStorageManager.save_eval_set sets c path d2 = Ok c2 ∧
     GcsEvalSetStorageManager.load_eval_set sets c2 path = Ok (Some d') ∧
     model_dump_json d' = model_dump_json d2) ∧
  (∃ c1 c2 (r' : EvalSetResult),
     GcsEvalSetResultsStorageManager.save_eval_set_result results c path r1 = Ok c1 ∧
     GcsEvalSetResultsStorageManager.save_eval_set_result results c1 path r2 = Ok c2 ∧
     GcsEvalSetResultsStorageManager.save_eval_set_result results c path r2 = Ok c2 ∧
     GcsEvalSetResultsStorageManager.load_eval_set_result results c2 path
       = Ok (Some r') ∧
     model_dump_json r' = model_dump_json r2).
Proof.
  intros [b Hb]%bucket_exists_true (d' & Hd' & Hdump) (r' & Hr' & Hrdump) sets results.
  split.
  - eexists _, _, d'.
    unfold GcsEvalSetStorageManager.save_eval_set,
      GcsEvalSetStorageManager.load_eval_set, upload_from_string, download_as_text.
    simpl. rewrite Hb. split; [done|]. rewrite lookup_insert_eq.
    split; [done|]. rewrite !insert_insert_eq. split; [done|].
    rewrite !lookup_insert_eq. simpl. by rewrite Hd'.
  - eexists _, _, r'.
    unfold GcsEvalSetResultsStorageManager.save_eval_set_result,
      GcsEvalSetResultsStorageManager.load_eval_set_result, upload_from_string,
      download_as_text.
    simpl. rewrite Hb. split; [done|]. rewrite lookup_insert_eq.
    split; [done|]. rewrite !insert_insert_eq. split; [done|].
    rewrite !lookup_insert_eq. simpl. by rewrite Hr'.
Qed.

(** X5.  A save touches one key only: what a load returns for any other
    key is what it returned before the save. *)
Theorem gcs_save_keeps_other_keys (bucket_name path other : string) (c c' : cloud)
    (d : EvalSet) (r : EvalSetResult) :
  other ≠ path →
  let sets := {| GcsEvalSetStorageManager.bucket_name := bucket_name |} in
  let results := {| GcsEvalSetResultsStorageManager.bucket_name := bucket_name |} in
  (GcsEvalSetStorageManager.save_eval_set sets c path d = Ok c' →
   GcsEvalSetStorageManager.load_eval_set (EvalSet := EvalSet) sets c' other =
   GcsEvalSetStorageManager.load_eval_set sets c other) ∧
  (GcsEvalSetResultsStorageManager.save_eval_set_result results c path r = Ok c' →
   GcsEvalSetResultsStorageManager.load_eval_set_result
     (EvalSetResult := EvalSetResult) results c' other =
   GcsEvalSetResultsStorageManager.load_eval_set_result results c other).
Proof.
  intros Hne sets results. split.
  - unfold GcsEvalSetStorageManager.save_eval_set,
      GcsEvalSetStorageManager.load_eval_set, upload_from_string, download_as_text.
    simpl. destruct (c !! bucket_name) as [b|] eqn:Hb; [|done]. intros [= <-].
    by rewrite lookup_insert_eq, lookup_insert_ne.
  - unfold GcsEvalSetResultsStorageManager.save_eval_set_result,
      GcsEvalSetResultsStorageManager.load_eval_set_result, upload_from_string,
      download_as_text.
    simpl. destruct (c !! bucket_name) as [b|] eqn:Hb; [|done]. intros [= <-].
    by rewrite lookup_insert_eq, lookup_insert_ne.
Qed.

(** X6.  When the bucket has gone after the manager was constructed, a
    save raises the provider's [NotFound] as it is, while a load reports
    the document as absent: a missing bucket and a missing document are
    not told apart. *)
Theorem gcs_missing_bucket (bucket_name path : string) (c : cloud)
    (d : EvalSet) (r : EvalSetResult) :
  bucket_exists c bucket_name = false →
  let sets := {| GcsEvalSetStorageManager.bucket_name := bucket_name |} in
  let results := {| GcsEvalSetResultsStorageManager.bucket_name := bucket_name |} in
  GcsEvalSetStorageManager.save_eval_set sets c path d = Raise NotFound ∧
  GcsEvalSetStorageManager.load_eval_set (EvalSet := EvalSet) sets c path = Ok None ∧
  GcsEvalSetResultsStorageManager.save_eval_set_result results c path r
    = Raise NotFound ∧
  GcsEvalSetResultsStorageManager.load_eval_set_result
    (EvalSetResult := EvalSetResult) results c path = Ok None.
Proof.
  intros Hb%bucket_exists_false sets results.
  unfold GcsEvalSetStorageManager.save_eval_set,
    GcsEvalSetStorageManager.load_eval_set,
    GcsEvalSetResultsStorageManager.save_eval_set_result,
    GcsEvalSetResultsStorageManager.load_eval_set_result,
    upload_from_string, download_as_text.
  simpl. by rewrite Hb.
Qed.
End gcs_extras.

Lemma gcs_last_save_wins_witness :
  let sets := {| GcsEvalSetStorageManager.bucket_name := "test_bucket" |} in
  let path := GcsEvalSetStorageManager.get_eval_set_path sets "test_app" "r1" in
  ∃ c1 c2 d',
    @GcsEvalSetStorageManager.save_eval_set string Sample.note_model sets
      Sample.provider path "one" = Ok c1 ∧
    @GcsEvalSetStorageManager.save_eval_set string Sample.note_model sets
      c1 path "two" = Ok c2 ∧
    @GcsEvalSetStorageManager.save_eval_set string Sample.note_model sets
      Sample.provider path "two" = Ok c2 ∧
    @GcsEvalSetStorageManager.load_eval_set string Sample.note_model sets c2 path
      = Ok (Some d') ∧
    @model_dump_json _ Sample.note_model d' = "note:two".
Proof.
  intros sets path.
  refine (proj1 (@gcs_last_save_wins string string Sample.note_model Sample.note_model
                   "test_bucket" path Sample.provider "one" "two" "one" "two"
                   _ _ _)).
  - reflexivity.
  - exists "two". split; reflexivity.
  - exists "two". split; reflexivity.
Defined.

Lemma gcs_save_keeps_other_keys_witness :
  let sets := {| GcsEvalSetStorageManager.bucket_name := "test_bucket" |} in
  ∃ c',
    @GcsEvalSetStorageManager.save_eval_set string Sample.note_model sets
      Sample.stocked_provider "test_app/evals/eval_sets/r1.evalset.json" "one" = Ok c' ∧
    @GcsEvalSetStorageManager.load_eval_set string Sample.note_model sets c'
      "test_app/evals/eval_sets/junk.evalset.json" =
    @GcsEvalSetStorageManager.load_eval_set string Sample.note_model sets
      Sample.stocked_provider "test_app/evals/eval_sets/junk.evalset.json".
Proof.
  intros sets.
  destruct (upload_succeeds Sample.stocked_provider "test_bucket"
              "test_app/evals/eval_sets/r1.evalset.json" "note:one" eq_refl)
    as [c' Hsave].
  exists c'. split; [exact Hsave|].
  refine (proj1 (@gcs_save_keeps_other_keys string string Sample.note_model
                   Sample.note_model "test_bucket"
                   "test_app/evals/eval_sets/r1.evalset.json"
                   "test_app/evals/eval_sets/junk.evalset.json"
                   Sample.stocked_provider c' "one" "one" _) Hsave).
  discriminate.
Defined.

Lemma gcs_missing_bucket_witness :
  let sets := {| GcsEvalSetStorageManager.bucket_name := "gone" |} in
  @GcsEvalSetStorageManager.save_eval_set string Sample.note_model sets
    Sample.provider "test_app/evals/eval_sets/r1.evalset.json" "one" = Raise NotFound ∧
  @GcsEvalSetStorageManager.load_eval_set string Sample.note_model sets
    Sample.provider "test_app/evals/eval_sets/r1.evalset.json" = Ok None.
Proof.
  intros sets.
  destruct (@gcs_missing_bucket string string Sample.note_model Sample.note_model
              "gone" "test_app/evals/eval_sets/r1.evalset.json" Sample.provider
              "one" "one" eq_refl) as (Hsave & Hload & _).
  by split.
Defined.

(** ** Listings *)

(** X7.  The prefix of a listing has no closing slash: an object stored
    under a key that only starts with the text of the namespace's
    directory, such as a sibling directory [eval_sets_old], is listed with
    the namespace, under the id decoded from its last component. *)
Theorem gcs_list_reaches_sibling_prefixes (c : cloud) (b : gmap string blob)
    (bucket_name ns rest id : string) :
  c !! bucket_name = Some b → has_sep id = false →
  let sets := {| GcsEvalSetStorageManager.bucket_name := bucket_name |} in
  let results := {| GcsEvalSetResultsStorageManager.bucket_name := bucket_name |} in
  (is_Some (b !! (GcsEvalSetStorageManager._get_eval_sets_dir sets ns ++ rest ++
                  "/" ++ id ++ ".evalset.json")) →
   ∃ l, GcsEvalSetStorageManager.list_eval_sets sets c ns = Ok l ∧ id ∈ l) ∧
  (is_Some (b !! (GcsEvalSetResultsStorageManager._get_eval_history_dir results ns ++
                  rest ++ "/" ++ id ++ ".evalset_result.json")) →
   ∃ l, GcsEvalSetResultsStorageManager.list_eval_set_results results c ns = Ok l ∧
        id ∈ l).
Proof.
  intros Hc Hid sets results. split; intros Hb.
  - unfold GcsEvalSetStorageManager.list_eval_sets, list_blobs. simpl. rewrite Hc.
    eexists. split; [done|]. apply elem_of_sorted, list_elem_of_fmap.
    eexists. split; [|apply elem_of_blob_names; split; [|exact Hb]].
    + rewrite <-str_app_assoc. by rewrite id_of_saved_name.
    + apply startswith_app.
  - unfold GcsEvalSetResultsStorageManager.list_eval_set_results, list_blobs.
    simpl. rewrite Hc.
    eexists. split; [done|]. apply elem_of_sorted, list_elem_of_fmap.
    eexists. split; [|apply elem_of_blob_names; split; [|exact Hb]].
    + rewrite <-str_app_assoc. by rewrite id_of_saved_name.
    + apply startswith_app.
Qed.

(** X8.  Whatever the store holds, a listing that is returned is in
    ascending order, on the four managers. *)
Theorem listings_are_sorted (root bucket_name ns : string) (fs : filesystem)
    (c : cloud) (l : list string) :
  (LocalEvalSetStorageManager.list_eval_sets
     (LocalEvalSetStorageManager.__init__ root) fs ns = Ok l →
   StronglySorted String.le l) ∧
  (LocalEvalSetResultsStorageManager.list_eval_set_results
     (LocalEvalSetResultsStorageManager.__init__ root) fs ns = Ok l →
   StronglySorted String.le l) ∧
  (GcsEvalSetStorageManager.list_eval_sets
     {| GcsEvalSetStorageManager.bucket_name := bucket_name |} c ns = Ok l →
   StronglySorted String.le l) ∧
  (GcsEvalSetResultsStorageManager.list_eval_set_results
     {| GcsEvalSetResultsStorageManager.bucket_name := bucket_name |} c ns = Ok l →
   StronglySorted String.le l).
Proof.
  split_and!.
  - unfold LocalEvalSetStorageManager.list_eval_sets.
    destruct (os_listdir fs _) as [files|]; [|done].
    intros [= <-]. apply sorted_StronglySorted.
  - unfold LocalEvalSetResultsStorageManager.list_eval_set_results.
    destruct (negb (os_path_exists fs _)).
    + intros [= <-]. constructor.
    + destruct (os_listdir fs _) as [files|]; [|done].
      intros [= <-]. apply sorted_StronglySorted.
  - unfold GcsEvalSetStorageManager.list_eval_sets.
    destruct (list_blobs c _ _) as [names|[]]; try done.
    intros [= <-]. apply sorted_StronglySorted.
  - unfold GcsEvalSetResultsStorageManager.list_eval_set_results.
    destruct (list_blobs c _ _) as [names|[]]; try done.
    intros [= <-]. apply sorted_StronglySorted.
Qed.

Lemma gcs_list_reaches_sibling_prefixes_witness :
  (∃ l, GcsEvalSetStorageManager.list_eval_sets
          {| GcsEvalSetStorageManager.bucket_name := "test_bucket" |}
          Sample.sibling_provider "test_app" = Ok l ∧ "x" ∈ l) ∧
  (∃ l, GcsEvalSetResultsStorageManager.list_eval_set_results
          {| GcsEvalSetResultsStorageManager.bucket_name := "test_bucket" |}
          Sample.sibling_provider "test_app" = Ok l ∧ "x" ∈ l).
Proof.
  destruct (gcs_list_reaches_sibling_prefixes Sample.sibling_provider
              Sample.sibling_objects "test_bucket" "test_app" "_old" "x"
              eq_refl eq_refl) as [Hsets Hresults].
  split.
  - apply Hsets. vm_compute. eauto.
  - apply Hresults. vm_compute. eauto.
Defined.

Lemma listings_are_sorted_witness :
  StronglySorted String.le ["junk"; "secret"].
Proof.
  refine (proj1 (listings_are_sorted "agents" "test_bucket" "test_app"
                   Sample.library Sample.provider ["junk"; "secret"]) _).
  vm_compute. reflexivity.
Defined.

(** ** Local listings and saves *)

Lemma removesuffix_endswith (s suf : string) :
  endswith s suf = true → removesuffix s suf ++ suf = s.
Proof. intros [a ->]%endswith_inv. by rewrite removesuffix_app. Qed.

(** X9.  When the history directory of a namespace exists,
    [list_eval_set_results] returns, without duplicates, exactly the ids
    [x] for which the directory has an entry [x.evalset_result.json]. *)
Theorem local_results_listing_exact (self : LocalEvalSetResultsStorageManager.t)
    (fs : filesystem) (ns : string) (loc : list string) :
  stat fs (LocalEvalSetResultsStorageManager._get_eval_history_dir self ns)
    = Ok (loc, Dir) →
  ∃ l,
    LocalEvalSetResultsStorageManager.list_eval_set_results self fs ns = Ok l ∧
    NoDup l ∧
    ∀ x, x ∈ l ↔
         is_Some (entries fs !! (loc ++ [(x ++ ".evalset_result.json")%string])%list).
Proof.
  intros Hst.
  unfold LocalEvalSetResultsStorageManager.list_eval_set_results,
    os_path_exists, os_listdir.
  rewrite Hst. simpl. eexists. split; [done|]. split.
  - apply sorted_NoDup, NoDup_fmap_2_strong; [|apply NoDup_filter, children_NoDup].
    intros f1 f2 [H1%Is_true_true _]%list_elem_of_filter
      [H2%Is_true_true _]%list_elem_of_filter Heq.
    rewrite <-(removesuffix_endswith f1 _ H1), <-(removesuffix_endswith f2 _ H2).
    by rewrite Heq.
  - intros x. rewrite elem_of_sorted, list_elem_of_fmap. split.
    + intros (file & -> & [Hend Hfile]%elem_of_local_names).
      by rewrite removesuffix_endswith.
    + intros Hx. exists (x ++ ".evalset_result.json").
      split; [by rewrite removesuffix_app|].
      apply elem_of_local_names. split; [apply endswith_app|done].
Qed.

Lemma local_results_listing_exact_witness :
  ∃ l,
    LocalEvalSetResultsStorageManager.list_eval_set_results
      (LocalEvalSetResultsStorageManager.__init__ "agents") Sample.library "test_app"
      = Ok l ∧
    NoDup l ∧
    ∀ x, x ∈ l ↔
         is_Some (entries Sample.library
                    !! (["home"; "agents"; "test_app"; ".adk"; "eval_history"] ++
                        [(x ++ ".evalset_result.json")%string])%list).
Proof.
  apply (local_results_listing_exact
           (LocalEvalSetResultsStorageManager.__init__ "agents") Sample.library
           "test_app").
  vm_compute. reflexivity.
Defined.

(** X10.  [list_eval_sets] does not look at the kind of an entry: every
    entry of the namespace's directory named [id.evalset.json], a file or
    a directory, is listed as [id]. *)
Theorem local_list_eval_sets_lists_every_entry (self : LocalEvalSetStorageManager.t)
    (fs : filesystem) (ns id : string) (loc : list string) :
  stat fs (os_path_join (LocalEvalSetStorageManager._agents_dir self) [ns])
    = Ok (loc, Dir) →
  has_sep id = false →
  is_Some (entries fs !! (loc ++ [(id ++ ".evalset.json")%string])%list) →
  ∃ l, LocalEvalSetStorageManager.list_eval_sets self fs ns = Ok l ∧ id ∈ l.
Proof.
  intros Hst Hid Hentry.
  unfold LocalEvalSetStorageManager.list_eval_sets, os_listdir.
  rewrite Hst. simpl. eexists. split; [done|].
  apply elem_of_sorted, list_elem_of_fmap. exists (id ++ ".evalset.json").
  split; [by rewrite basename_file_name|].
  apply elem_of_local_names. split; [apply endswith_app|done].
Qed.


Lemma local_list_eval_sets_lists_every_entry_witness :
  ∃ l, LocalEvalSetStorageManager.list_eval_sets
         (LocalEvalSetStorageManager.__init__ "agents") Sample.nested "test_app" = Ok l ∧
       "archive" ∈ l.
Proof.
  apply (local_list_eval_sets_lists_every_entry
           (LocalEvalSetStorageManager.__init__ "agents") Sample.nested "test_app"
           "archive" ["home"; "agents"; "test_app"]).
  - vm_compute. reflexivity.
  - reflexivity.
  - vm_compute. eauto.
Defined.

Section local_extras.
Context {EvalSet EvalSetResult : Type}.
Context `{BaseModel EvalSet} `{BaseModel EvalSetResult} `{TextEncoding}.

(** X12.  A path without a directory part cannot be saved to: the managers
    call [os.makedirs] on its empty directory name, which raises
    [FileNotFoundError], whatever the file system holds. *)
Theorem local_save_needs_directory_part (root path : string) (fs : filesystem)
    (d : EvalSet) (r : EvalSetResult) :
  has_sep path = false →
  LocalEvalSetStorageManager.save_eval_set
    (LocalEvalSetStorageManager.__init__ root) fs path d = Raise FileNotFoundError ∧
  LocalEvalSetResultsStorageManager.save_eval_set_result
    (LocalEvalSetResultsStorageManager.__init__ root) fs path r
    = Raise FileNotFoundError.
Proof.
  intros Hpath.
  assert (dirname path = "") as Hdir.
  { unfold dirname. by rewrite head_of_plain. }
  rewrite local_save_eval_set_unfold, local_save_result_unfold.
  by rewrite Hdir, os_path_exists_nil, os_makedirs_nil.
Qed.

(** X13.  A save that returns leaves the working directory and every
    other entry of the file system as they were: only the location the
    path names is written, and directories are only added. *)
Theorem local_save_keeps_other_entries (root path : string) (fs fs' : filesystem)
    (d : EvalSet) (r : EvalSetResult) :
  (LocalEvalSetStorageManager.save_eval_set
     (LocalEvalSetStorageManager.__init__ root) fs path d = Ok fs' ∨
   LocalEvalSetResultsStorageManager.save_eval_set_result
     (LocalEvalSetResultsStorageManager.__init__ root) fs path r = Ok fs') →
  cwd fs' = cwd fs ∧
  ∀ q n, entries fs !! q = Some n → q ≠ abspath fs path →
         entries fs' !! q = Some n.
Proof.
  intros Hsave.
  assert ((fs1 ← (if negb (os_path_exists fs (dirname path))
                  then os_makedirs fs (dirname path) else Ok fs);
           write_bytes fs1 path (locale_encode (model_dump_json d))) = Ok fs' ∨
          (fs1 ← (if negb (os_path_exists fs (dirname path))
                  then os_makedirs fs (dirname path) else Ok fs);
           write_bytes fs1 path (locale_encode (model_dump_json r))) = Ok fs')
    as Hrun by exact Hsave.
  clear Hsave.
  destruct (String.eqb_spec (dirname path) "") as [Hdn|Hdn].
  { rewrite Hdn, os_path_exists_nil, os_makedirs_nil in Hrun. by destruct Hrun. }
  destruct (if negb (os_path_exists fs (dirname path))
            then os_makedirs fs (dirname path) else Ok fs) as [fs1|] eqn:Hfs1;
    [|by destruct Hrun].
  destruct (local_save_prepare fs (dirname path) Hdn fs1 Hfs1)
    as (Hcwd & Hmono & _ & _).
  assert (∃ data, write_bytes fs1 path data = Ok fs') as [data Hwrite].
  { destruct Hrun as [Hrun|Hrun]; eauto. }
  apply write_bytes_inv in Hwrite as (t & rd & wr & Hres & _ & _ & _ & ->).
  split; [done|]. intros q n Hq Hne. simpl.
  assert (t = abspath fs path) as ->.
  { unfold resolve in Hres. destruct (String.eqb path ""); [done|].
    apply walk_target in Hres. rewrite Hres.
    by apply (abspath_cwd fs fs1). }
  rewrite lookup_insert_ne by done. by apply Hmono.
Qed.
End local_extras.

Lemma local_save_needs_directory_part_witness :
  @LocalEvalSetStorageManager.save_eval_set string Sample.note_model
    Sample.ascii_locale (LocalEvalSetStorageManager.__init__ "agents") Sample.home
    "r1.evalset.json" "one" = Raise FileNotFoundError.
Proof.
  refine (proj1 (@local_save_needs_directory_part string string Sample.note_model
                   Sample.note_model Sample.ascii_locale "agents" "r1.evalset.json"
                   Sample.home "one" "one" _)).
  reflexivity.
Defined.

Lemma local_save_keeps_other_entries_witness :
  let sets := LocalEvalSetStorageManager.__init__ "agents" in
  let path := LocalEvalSetStorageManager.get_eval_set_path sets "test_app" "r1" in
  ∃ fs',
    @LocalEvalSetStorageManager.save_eval_set string Sample.note_model
      Sample.ascii_locale sets Sample.library path "one" = Ok fs' ∧
    cwd fs' = cwd Sample.library ∧
    ∀ q n, entries Sample.library !! q = Some n → q ≠ abspath Sample.library path →
           entries fs' !! q = Some n.
Proof.
  intros sets path.
  assert ((@LocalEvalSetStorageManager.save_eval_set string Sample.note_model
             Sample.ascii_locale sets Sample.library path "one" ≫= λ _, Ok tt) = Ok tt)
    as Hrun.
  { vm_compute. reflexivity. }
  apply bind_Ok_inv in Hrun as (fs' & Hsave & _).
  exists fs'. split; [exact Hsave|].
  exact (@local_save_keeps_other_entries string string Sample.note_model
           Sample.note_model Sample.ascii_locale "agents" path Sample.library fs'
           "one" "one" (or_introl Hsave)).
Defined.
